(** * api2go: the resource dispatch engine of [api.go]

    A shallow embedding of [api.go]: the registration of a resource
    ([addResource]), the five handlers ([handleIndex], [handleRead],
    [handleCreate], [handleUpdate], [handleDelete]), [respondWith],
    [unmarshalJSONRequest], [buildRequest] and [handleError].

    The handlers are effectful: they call the DataSource and the Controller
    (collaborators, opaque to the engine), write to the [http.ResponseWriter]
    and log.  The embedding threads an explicit state (the collaborators'
    world, the response writer, and the trace of every effect in program
    order) through a small state-and-error monad. *)

From Stdlib Require Import ZArith Ascii String List Lia.
From stdpp Require Import base option list strings gmap.

Set Warnings "-register-all".
Local Open Scope string_scope.
Local Open Scope list_scope.
Local Open Scope Z_scope.

(** ** Package [strings] (Go standard library) *)

Module strings.

(** [strings.Split(s, sep)] for a one-byte separator, the only use in
    [api.go] ([","]).  The result is never empty: a string without the
    separator is returned as the one-element list. *)
Fixpoint Split (s : string) (sep : ascii) : list string :=
  match s with
  | EmptyString => [EmptyString]
  | String c s' =>
      if Ascii.eqb c sep then EmptyString :: Split s' sep
      else match Split s' sep with
           | [] => [String c EmptyString]
           | w :: ws => String c w :: ws
           end
  end.

Fixpoint TrimLeft (s : string) (cut : ascii) : string :=
  match s with
  | EmptyString => EmptyString
  | String c s' => if Ascii.eqb c cut then TrimLeft s' cut else s
  end.

Fixpoint TrimRight (s : string) (cut : ascii) : string :=
  match s with
  | EmptyString => EmptyString
  | String c s' =>
      match TrimRight s' cut with
      | EmptyString => if Ascii.eqb c cut then EmptyString else String c EmptyString
      | t => String c t
      end
  end.

(** [strings.Trim(s, cutset)] for a one-byte cutset. *)
Definition Trim (s : string) (cut : ascii) : string :=
  TrimRight (TrimLeft s cut) cut.

Fixpoint Contains (s : string) (c : ascii) : bool :=
  match s with
  | EmptyString => false
  | String d s' => Ascii.eqb d c || Contains s' c
  end.

End strings.

(** ** Package [encoding/json] (Go standard library)

    The syntax of JSON texts (RFC 8259), as [json.Unmarshal] scans it.  A
    number keeps its lexeme; a string is unescaped. *)

Inductive JSON : Type :=
  | JNull
  | JBool (b : bool)
  | JNumber (lexeme : string)
  | JString (s : string)
  | JArray (items : list JSON)
  | JObject (members : list (string * JSON)).

Module json.

(** The quotation mark, byte 34. *)
Definition dquote : ascii := Eval cbv in ascii_of_nat 34.

Definition is_ws (c : ascii) : bool :=
  let n := Z.of_nat (nat_of_ascii c) in
  (n =? 32) || (n =? 9) || (n =? 10) || (n =? 13).

Definition is_digit (c : ascii) : bool :=
  let n := Z.of_nat (nat_of_ascii c) in (48 <=? n) && (n <=? 57).

Fixpoint skip_ws (s : string) : string :=
  match s with
  | String c s' => if is_ws c then skip_ws s' else s
  | EmptyString => s
  end.

(** [expect p s]: [s] without its prefix [p], if it has it. *)
Fixpoint expect (p s : string) : option string :=
  match p, s with
  | EmptyString, _ => Some s
  | String a p', String b s' => if Ascii.eqb a b then expect p' s' else None
  | String _ _, EmptyString => None
  end.

(** The longest prefix of digits, and the rest. *)
Fixpoint digits (s : string) : string * string :=
  match s with
  | String c s' =>
      if is_digit c then let '(d, r) := digits s' in (String c d, r)
      else (EmptyString, s)
  | EmptyString => (EmptyString, s)
  end.

(** number = [ "-" ] int [ "." 1*digit ] [ ("e" / "E") [ "+" / "-" ] 1*digit ],
    where int is "0" or a digit string without a leading zero. *)
Definition number (s : string) : option (string * string) :=
  let '(sign, s1) :=
    match s with
    | String "-" r => ("-", r)
    | _ => ("", s)
    end in
  let '(int, s2) := digits s1 in
  match int with
  | EmptyString => None
  | String "0" (String _ _) => None
  | _ =>
      let frac :=
        match s2 with
        | String "." r =>
            let '(d, r') := digits r in
            match d with
            | EmptyString => None
            | _ => Some ("." +:+ d, r')
            end
        | _ => Some ("", s2)
        end in
      match frac with
      | None => None
      | Some (f, s3) =>
          let exp :=
            match s3 with
            | String e r =>
                if Ascii.eqb e "e" || Ascii.eqb e "E" then
                  let '(sg, r1) :=
                    match r with
                    | String "+" r' => ("+", r')
                    | String "-" r' => ("-", r')
                    | _ => ("", r)
                    end in
                  let '(d, r2) := digits r1 in
                  match d with
                  | EmptyString => None
                  | _ => Some (String e (sg +:+ d), r2)
                  end
                else Some ("", s3)
            | EmptyString => Some ("", s3)
            end in
          match exp with
          | None => None
          | Some (x, s4) => Some (sign +:+ int +:+ f +:+ x, s4)
          end
      end
  end.

Definition hex_val (c : ascii) : option Z :=
  let n := Z.of_nat (nat_of_ascii c) in
  if (48 <=? n) && (n <=? 57) then Some (n - 48)
  else if (65 <=? n) && (n <=? 70) then Some (n - 55)
  else if (97 <=? n) && (n <=? 102) then Some (n - 87)
  else None.

(** Four hexadecimal digits after a backslash-u. *)
Definition hex4 (s : string) : option (Z * string) :=
  match s with
  | String a (String b (String c (String d r))) =>
      match hex_val a, hex_val b, hex_val c, hex_val d with
      | Some x, Some y, Some z, Some w => Some (((x * 16 + y) * 16 + z) * 16 + w, r)
      | _, _, _, _ => None
      end
  | _ => None
  end.

Definition byte (n : Z) : ascii := ascii_of_nat (Z.to_nat n).

(** The UTF-8 encoding of a code point. *)
Definition utf8 (r : Z) : string :=
  if r <? 128 then String (byte r) ""
  else if r <? 2048 then
    String (byte (192 + r / 64)) (String (byte (128 + r mod 64)) "")
  else if r <? 65536 then
    String (byte (224 + r / 4096))
      (String (byte (128 + (r / 64) mod 64)) (String (byte (128 + r mod 64)) ""))
  else
    String (byte (240 + r / 262144))
      (String (byte (128 + (r / 4096) mod 64))
         (String (byte (128 + (r / 64) mod 64)) (String (byte (128 + r mod 64)) ""))).

Definition is_high_surrogate (r : Z) : bool := (55296 <=? r) && (r <? 56320).
Definition is_low_surrogate (r : Z) : bool := (56320 <=? r) && (r <? 57344).

(** A backslash-u escape whose first four digits gave [r]: a valid surrogate
    pair is combined, a lone surrogate becomes U+FFFD. *)
Definition unicode_escape (r : Z) (rest : string) : string * string :=
  if is_high_surrogate r then
    match rest with
    | String "\" (String "u" r1) =>
        match hex4 r1 with
        | Some (lo, r2) =>
            if is_low_surrogate lo
            then (utf8 (65536 + (r - 55296) * 1024 + (lo - 56320)), r2)
            else (utf8 65533, rest)
        | None => (utf8 65533, rest)
        end
    | _ => (utf8 65533, rest)
    end
  else if is_low_surrogate r then (utf8 65533, rest)
  else (utf8 r, rest).

(** The characters of a string after its opening quote, up to and
    including the closing quote. *)
Fixpoint chars (fuel : nat) (s : string) : option (string * string) :=
  match fuel with
  | O => None
  | S fuel' =>
      match s with
      | EmptyString => None
      | String c r =>
          if Ascii.eqb c dquote then Some ("", r)
          else if Ascii.eqb c "\" then
            match r with
            | EmptyString => None
            | String e r =>
                let simple (c : ascii) :=
                  match chars fuel' r with
                  | Some (t, r') => Some (String c t, r')
                  | None => None
                  end in
                if Ascii.eqb e dquote then simple dquote
                else if Ascii.eqb e "\" then simple "\"%char
                else if Ascii.eqb e "/" then simple "/"%char
                else if Ascii.eqb e "b" then simple (byte 8)
                else if Ascii.eqb e "f" then simple (byte 12)
                else if Ascii.eqb e "n" then simple (byte 10)
                else if Ascii.eqb e "r" then simple (byte 13)
                else if Ascii.eqb e "t" then simple (byte 9)
                else if Ascii.eqb e "u" then
                  match hex4 r with
                  | Some (cp, r1) =>
                      let '(u, r2) := unicode_escape cp r1 in
                      match chars fuel' r2 with
                      | Some (t, r') => Some (u +:+ t, r')
                      | None => None
                      end
                  | None => None
                  end
                else None
            end
          else if Z.of_nat (nat_of_ascii c) <? 32 then None
          else match chars fuel' r with
               | Some (t, r') => Some (String c t, r')
               | None => None
               end
      end
  end.

(** One JSON value at the head of [s] (after white space), and the rest. *)
Fixpoint value (fuel : nat) (s : string) : option (JSON * string) :=
  match fuel with
  | O => None
  | S fuel' =>
      match skip_ws s with
      | EmptyString => None
      | String c r =>
          if Ascii.eqb c "{" then
            match skip_ws r with
            | String "}" r' => Some (JObject [], r')
            | _ =>
                match members fuel' r with
                | Some (ms, r') => Some (JObject ms, r')
                | None => None
                end
            end
          else if Ascii.eqb c "[" then
            match skip_ws r with
            | String "]" r' => Some (JArray [], r')
            | _ =>
                match elements fuel' r with
                | Some (xs, r') => Some (JArray xs, r')
                | None => None
                end
            end
          else if Ascii.eqb c dquote then
            match chars (S (String.length r)) r with
            | Some (t, r') => Some (JString t, r')
            | None => None
            end
          else if Ascii.eqb c "t" then
            match expect "rue" r with Some r' => Some (JBool true, r') | None => None end
          else if Ascii.eqb c "f" then
            match expect "alse" r with Some r' => Some (JBool false, r') | None => None end
          else if Ascii.eqb c "n" then
            match expect "ull" r with Some r' => Some (JNull, r') | None => None end
          else
            match number (String c r) with
            | Some (lexeme, r') => Some (JNumber lexeme, r')
            | None => None
            end
      end
  end
(** value *( "," value ) "]" *)
with elements (fuel : nat) (s : string) : option (list JSON * string) :=
  match fuel with
  | O => None
  | S fuel' =>
      match value fuel' s with
      | Some (x, r) =>
          match skip_ws r with
          | String "]" r' => Some ([x], r')
          | String "," r' =>
              match elements fuel' r' with
              | Some (xs, r'') => Some (x :: xs, r'')
              | None => None
              end
          | _ => None
          end
      | None => None
      end
  end
(** string ":" value *( "," string ":" value ) "}" *)
with members (fuel : nat) (s : string) : option (list (string * JSON) * string) :=
  match fuel with
  | O => None
  | S fuel' =>
      match skip_ws s with
      | String q r =>
          if negb (Ascii.eqb q dquote) then None else
          match chars (S (String.length r)) r with
          | Some (k, r1) =>
              match skip_ws r1 with
              | String ":" r2 =>
                  match value fuel' r2 with
                  | Some (v, r3) =>
                      match skip_ws r3 with
                      | String "}" r' => Some ([(k, v)], r')
                      | String "," r' =>
                          match members fuel' r' with
                          | Some (ms, r'') => Some ((k, v) :: ms, r'')
                          | None => None
                          end
                      | _ => None
                      end
                  | None => None
                  end
              | _ => None
              end
          | None => None
          end
      | _ => None
      end
  end.

(** A whole JSON text: one value, surrounded by white space only.  Every
    recursive call of the scanner follows at least one consumed byte or is
    the value call at the head of a list, so twice the length bounds the
    depth. *)
Definition parse (data : string) : option JSON :=
  match value (2 * String.length data + 2) data with
  | Some (v, r) =>
      match skip_ws r with
      | EmptyString => Some v
      | _ => None
      end
  | None => None
  end.

End json.


(** ** Errors

    Go's [error] is an open interface.  The engine builds errors with
    [errors.New], receives the errors of [encoding/json] and of the body
    reader, and receives whatever the collaborators return; it inspects an
    error in one place only, the type assertion [err.(HTTPError)] of
    [handleError]. *)

(** Modelled from the spec: the declaration of [HTTPError] is not under src/.
    Spec 3: "HTTP Error: {status code, message, optional structured
    sub-errors}".  The fields are the three [handleError] reads: [e.status],
    [e.msg] and [e.Errors] (of which it takes the length only). *)
Record HTTPError : Type := {
  status : Z;
  msg : string;
  Errors : list JSON;
}.

Inductive error : Type :=
  | errorString (s : string)              (* errors.New(s) *)
  | SyntaxError (text : string)           (* *json.SyntaxError *)
  | UnmarshalTypeError (found : string)   (* *json.UnmarshalTypeError *)
  | HTTPErrorValue (e : HTTPError)        (* dynamic type HTTPError *)
  | ForeignError (text : string).         (* any other dynamic type *)

Module errors.
Definition New (text : string) : error := errorString text.
End errors.

(** A Go result pair [(x, err)]: the engine never looks at [x] when
    [err != nil], so the pair is a sum. *)
Inductive Result (A : Type) : Type :=
  | Ok (a : A)
  | Err (e : error).
Arguments Ok {A} a.
Arguments Err {A} e.

(** The name of the JSON value an [UnmarshalTypeError] reports. *)
Definition kind_name (v : JSON) : string :=
  match v with
  | JNull => "null"
  | JBool _ => "bool"
  | JNumber _ => "number"
  | JString _ => "string"
  | JArray _ => "array"
  | JObject _ => "object"
  end.

(** [json.Unmarshal(data, &result)] where [result] is a
    [map[string]interface{}]: an object fills the map (a repeated key keeps
    its last value), the literal null sets the map to nil without an error,
    any other value is an [UnmarshalTypeError], and a text that is not JSON
    is a [SyntaxError].  A nil map and an empty map read the same and are
    both [∅]. *)
Definition Unmarshal_map (data : string) (result : gmap string JSON)
  : Result (gmap string JSON) :=
  match json.parse data with
  | None => Err (SyntaxError "invalid JSON text")
  | Some (JObject members) =>
      Ok (foldl (λ (m : gmap string JSON) (kv : string * JSON), <[kv.1 := kv.2]> m)
            result members)
  | Some JNull => Ok ∅
  | Some v => Err (UnmarshalTypeError (kind_name v))
  end.

(** ** Package [reflect]: dynamic types and values *)

Module reflect.

Inductive Kind : Type :=
  | Invalid | Bool | Int | Int8 | Int16 | Int32 | Int64
  | Uint | Uint8 | Uint16 | Uint32 | Uint64 | Uintptr
  | Float32 | Float64 | Complex64 | Complex128
  | Array | Chan | Func | Interface | Map | Ptr | Slice
  | String | Struct | UnsafePointer.

#[global] Instance Kind_eq_dec : EqDecision Kind.
Proof. solve_decision. Defined.

(** A type as the engine sees it: its kind, its name (empty for an
    unnamed type) and, for a struct, its fields, each with its name and
    the kind of its type. *)
Record rtype : Type := {
  kind : Kind;
  name : string;
  fields : list (string * Kind);
}.

#[global] Instance rtype_eq_dec : EqDecision rtype.
Proof. solve_decision. Defined.

End reflect.

(** The payload of a value. *)
Inductive Data : Type :=
  | DNil
  | DBool (b : bool)
  | DInt (n : Z)
  | DFloat (lexeme : string)
  | DString (s : string)
  | DList (items : list Data)
  | DStruct (fields : list (string * Data)).

(** A non-nil [interface{}]: a dynamic type and a payload. *)
Record Value : Type := {
  TypeOf : reflect.rtype;
  data : Data;
}.

(** [interface{}]: nil, or a value. *)
Abbreviation interface := (option Value).

(** ** Package [net/http] *)

Module http.

(** [http.Header]; the keys the engine sets (Allow, Location,
    Content-Type) are in canonical form already. *)
Abbreviation Header := (gmap string (list string)).

(** An inbound request: [r.URL.Query()] is built from the decoded
    key=value pairs of the query string in their order, and [Body] is what
    reading the body to its end gives. *)
Record Request : Type := {
  Method : string;
  Path : string;
  RawQuery : list (string * string);
  Body : Result string;
}.

(** [url.Values]: every pair appends its value to the list of its key. *)
Definition Query (r : Request) : gmap string (list string) :=
  foldl (λ (m : gmap string (list string)) (kv : string * string),
           <[kv.1 := default [] (m !! kv.1) ++ [kv.2]]> m) ∅ (RawQuery r).

(** The response writer of the server.  [sent] is the status line and the
    header snapshot that went out with the first [WriteHeader]; a second
    [WriteHeader] is ignored, a change of [Header] after the first one does
    not reach the client, and a [Write] before any [WriteHeader] sends 200
    first. *)
Record ResponseWriter : Type := {
  Header_ : gmap string (list string);
  sent : option (Z * gmap string (list string));
  written : string;
}.

Definition fresh : ResponseWriter :=
  {| Header_ := ∅; sent := None; written := "" |}.

Definition Set_ (key value : string) (w : ResponseWriter) : ResponseWriter :=
  {| Header_ := <[key := [value]]> (Header_ w); sent := sent w; written := written w |}.

Definition WriteHeader (code : Z) (w : ResponseWriter) : ResponseWriter :=
  match sent w with
  | Some _ => w
  | None => {| Header_ := Header_ w; sent := Some (code, Header_ w); written := written w |}
  end.

Definition Write (p : string) (w : ResponseWriter) : ResponseWriter :=
  let w' := WriteHeader 200 w in
  {| Header_ := Header_ w'; sent := sent w'; written := written w' +:+ p |}.

Definition StatusNoContent : Z := 204.
Definition StatusOK : Z := 200.
Definition StatusCreated : Z := 201.

(** What the client has received. *)
Definition response_status (w : ResponseWriter) : option Z := fst <$> sent w.
Definition response_header (w : ResponseWriter) (key : string) : option (list string) :=
  sent w ≫= λ s, s.2 !! key.

End http.

(** ** Package [api2go] *)

(** [Request] holds additional information for FindOne and Find requests. *)
Record Request : Type := {
  QueryParams : gmap string (list string);
}.

(** Every effect of a request, in program order. *)
Inductive Event : Type :=
  | SourceFindAll (req : Request)
  | SourceFindOne (ID : string) (req : Request)
  | SourceFindMultiple (IDs : list string) (req : Request)
  | SourceCreate (obj : interface)
  | SourceDelete (id : string)
  | SourceUpdate (obj : interface)
  | HookFindAll (objs : interface)
  | HookFindOne (obj : interface)
  | HookCreate (obj : interface)
  | HookDelete (id : string)
  | HookUpdate (obj : interface)
  | HeaderSet (key value : string)
  | WriteHeader (code : Z)
  | Write (p : string)
  | LogPrintln (e : error).

(** [DataSource] provides methods needed for CRUD.  A method runs on the
    collaborators' world [W] and may change it. *)
Module DataSource.
Record t (W : Type) : Type := {
  FindAll : Request → W → Result interface * W;
  FindOne : string → Request → W → Result interface * W;
  FindMultiple : list string → Request → W → Result interface * W;
  Create : interface → W → Result string * W;
  Delete : string → W → Result unit * W;
  Update : interface → W → Result unit * W;
}.
Arguments FindAll {W} _ _ _.
Arguments FindOne {W} _ _ _ _.
Arguments FindMultiple {W} _ _ _ _.
Arguments Create {W} _ _ _.
Arguments Delete {W} _ _ _.
Arguments Update {W} _ _ _.
End DataSource.

(** [Controller] provides more customization of each route.  A hook that
    takes [obj *interface{}] may replace the object: it returns the object
    it leaves behind. *)
Module Controller.
Record t (W : Type) : Type := {
  FindAll : http.Request → interface → W → Result interface * W;
  FindOne : http.Request → interface → W → Result interface * W;
  Create : http.Request → interface → W → Result interface * W;
  Delete : http.Request → string → W → Result unit * W;
  Update : http.Request → interface → W → Result interface * W;
}.
Arguments FindAll {W} _ _ _ _.
Arguments FindOne {W} _ _ _ _.
Arguments Create {W} _ _ _ _.
Arguments Delete {W} _ _ _ _.
Arguments Update {W} _ _ _ _.
End Controller.

Record resource (W : Type) : Type := {
  resourceType : reflect.rtype;
  source : DataSource.t W;
  name : string;
  controller : option (Controller.t W);
}.
Arguments resourceType {W} _.
Arguments source {W} _.
Arguments name {W} _.
Arguments controller {W} _.

(** The functions of package api2go that [api.go] calls and that live in
    other files of the package. *)
Class Package : Type := {
  jsonify : string → string;
  pluralize : string → string;
  MarshalToJSON : interface → Result string;
  marshalError : HTTPError → string;
  (** [unmarshalInto(ctx, structType, &sliceVal)]: the slice it leaves
      behind, or an error. *)
  unmarshalInto : gmap string JSON → reflect.rtype → list Data → Result (list Data);
}.

(** *** The handler monad *)

Inductive outcome (A : Type) : Type :=
  | Return (a : A)          (* the function returns, with a nil error *)
  | Fail (e : error)        (* [return err] *)
  | Panic (reason : string).
Arguments Return {A} a.
Arguments Fail {A} e.
Arguments Panic {A} reason.

Record State (W : Type) : Type := {
  world : W;
  writer : http.ResponseWriter;
  trace : list Event;
}.
Arguments world {W} _.
Arguments writer {W} _.
Arguments trace {W} _.

Definition M (W A : Type) : Type := State W → outcome A * State W.

Definition ret {W A} (a : A) : M W A := λ st, (Return a, st).
Definition fail {W A} (e : error) : M W A := λ st, (Fail e, st).
Definition panic {W A} (reason : string) : M W A := λ st, (Panic reason, st).

Definition bind {W A B} (m : M W A) (k : A → M W B) : M W B :=
  λ st, match m st with
        | (Return a, st') => k a st'
        | (Fail e, st') => (Fail e, st')
        | (Panic p, st') => (Panic p, st')
        end.

Notation "x <- m ;; k" := (bind m (λ x, k))
  (at level 100, m at next level, right associativity).
Notation "m ;; k" := (bind m (λ _, k))
  (at level 100, right associativity).

Definition lift {W A} (r : Result A) : M W A :=
  match r with
  | Ok a => ret a
  | Err e => fail e
  end.

Definition emit {W} (ev : Event) : M W unit :=
  λ st, (Return (), {| world := world st; writer := writer st; trace := trace st ++ [ev] |}).

(** A call into a collaborator: the call is recorded, then it runs on the
    world. *)
Definition call {W A} (ev : Event) (f : W → Result A * W) : M W A :=
  emit ev ;;
  λ st, let '(r, w') := f (world st) in
        lift r {| world := w'; writer := writer st; trace := trace st |}.

Definition on_writer {W} (ev : Event) (f : http.ResponseWriter → http.ResponseWriter) : M W unit :=
  emit ev ;;
  λ st, (Return (), {| world := world st; writer := f (writer st); trace := trace st |}).

Definition w_Header_Set {W} (key value : string) : M W unit :=
  on_writer (HeaderSet key value) (http.Set_ key value).
Definition w_WriteHeader {W} (code : Z) : M W unit :=
  on_writer (WriteHeader code) (http.WriteHeader code).
Definition w_Write {W} (p : string) : M W unit :=
  on_writer (Write p) (http.Write p).
Definition log_Println {W} (e : error) : M W unit := emit (LogPrintln e).

(** [http.Error(w, error, code)]: a plain-text content type, the status,
    and the message followed by a newline. *)
Definition http_Error {W} (text : string) (code : Z) : M W unit :=
  w_Header_Set "Content-Type" "text/plain; charset=utf-8" ;;
  w_WriteHeader code ;;
  w_Write (text +:+ String (ascii_of_nat 10) "").

(** ** Package [httprouter] (third party): parameters and registration *)

Module httprouter.

(** The values of the wildcards of the matched route. *)
Definition Params : Type := list (string * string).

(** [ps.ByName(name)]: the first value with that key, or the empty
    string. *)
Fixpoint ByName (ps : Params) (name : string) : string :=
  match ps with
  | [] => ""
  | (k, v) :: ps' => if String.eqb k name then v else ByName ps' name
  end.

Record Route (H : Type) : Type := {
  method : string;
  path : string;
  handle : H;
}.
Arguments method {H} _.
Arguments path {H} _.
Arguments handle {H} _.

Definition registered {H} (m p : string) (routes : list (Route H)) : bool :=
  existsb (λ rt, String.eqb (method rt) m && String.eqb (path rt) p) routes.

(** [router.Handle(method, path, handle)] registers a handle; it panics
    when the path does not begin with a slash and when a handle is
    registered for that method and path already ([None]).  The router also
    refuses a wildcard segment that clashes with a static segment at the same
    place; the name of a resource comes from the name of a Go type, which has
    neither a slash nor a colon, so among the routes of resources under one
    prefix only a repeated route clashes. *)
Definition Handle {H} (m p : string) (h : H) (routes : list (Route H))
  : option (list (Route H)) :=
  match p with
  | String "/" _ =>
      if registered m p routes then None
      else Some (routes ++ [{| method := m; path := p; handle := h |}])
  | _ => None
  end.

End httprouter.

(** [buildRequest]: every key of [r.URL.Query()] is given the list
    [strings.Split(values[0], ",")].  [values[0]] of an empty list is an
    index out of range ([None]). *)
Definition buildRequest (r : http.Request) : option Request :=
  params ← map_fold
    (λ (key : string) (values : list string) (acc : option (gmap string (list string))),
       params ← acc;
       v0 ← values !! 0%nat;
       Some (<[key := strings.Split v0 ","]> params))
    (Some ∅) (http.Query r);
  Some {| QueryParams := params |}.

Section handlers.

Context {W : Type} `{Package}.

(** [buildRequest(r)] inside a handler. *)
Definition build_request (r : http.Request) : M W Request :=
  match buildRequest r with
  | Some req => ret req
  | None => panic "runtime error: index out of range"
  end.

(** [v.Index(0)] of a slice value. *)
Definition Index0 (slice : list Data) : M W Data :=
  match slice !! 0%nat with
  | Some d => ret d
  | None => panic "reflect: slice index out of range"
  end.

(** [reflect.ValueOf(obj)] stored with [Set] in a slot of type [t]: the
    dynamic type of [obj] has to be [t] (a struct type has no other
    assignable type), and a nil [obj] has no value to store. *)
Definition assignable (t : reflect.rtype) (obj : interface) : M W Data :=
  match obj with
  | None => panic "reflect: call of reflect.Value.Set on zero Value"
  | Some v =>
      if decide (TypeOf v = t) then ret (data v)
      else panic "reflect.Set: value is not assignable to the resource type"
  end.

(** [respondWith] (api.go, lines 300-309): nothing is written when the
    encoding fails. *)
Definition respondWith (obj : interface) (status : Z) : M W unit :=
  data <- lift (MarshalToJSON obj) ;;
  w_Header_Set "Content-Type" "application/json" ;;
  w_WriteHeader status ;;
  w_Write data.

(** [unmarshalJSONRequest]: the body is read to its end (and closed on
    return), then unmarshalled into a [map[string]interface{}] that starts
    empty. *)
Definition unmarshalJSONRequest (r : http.Request) : M W (gmap string JSON) :=
  data <- lift (http.Body r) ;;
  lift (Unmarshal_map data ∅).

(** [handleError] (api.go, lines 325-337). *)
Definition handleError (err : error) : M W unit :=
  log_Println err ;;
  match err with
  | HTTPErrorValue e =>
      if (0 <? length (Errors e))%nat
      then http_Error (marshalError e) (status e)
      else http_Error (msg e) (status e)
  | _ => w_WriteHeader 500
  end.

(** [handleIndex] (api.go, lines 175-187). *)
Definition handleIndex (res : resource W) (r : http.Request) : M W unit :=
  req <- build_request r ;;
  objs <- call (SourceFindAll req) (DataSource.FindAll (source res) req) ;;
  objs <- match controller res with
          | Some c => call (HookFindAll objs) (Controller.FindAll c r objs)
          | None => ret objs
          end ;;
  respondWith objs http.StatusOK.

(** [handleRead] (api.go, lines 189-213). *)
Definition handleRead (res : resource W) (r : http.Request) (ps : httprouter.Params)
  : M W unit :=
  let ids := strings.Split (httprouter.ByName ps "id") "," in
  obj <- (if decide (length ids = 1%nat) then
            match ids !! 0%nat with
            | Some id0 =>
                req <- build_request r ;;
                call (SourceFindOne id0 req) (DataSource.FindOne (source res) id0 req)
            | None => panic "runtime error: index out of range"
            end
          else
            req <- build_request r ;;
            call (SourceFindMultiple ids req) (DataSource.FindMultiple (source res) ids req)) ;;
  obj <- match controller res with
         | Some c => call (HookFindOne obj) (Controller.FindOne c r obj)
         | None => ret obj
         end ;;
  respondWith obj http.StatusOK.

(** [handleCreate] (api.go, lines 215-249); the slice starts empty. *)
Definition handleCreate (res : resource W) (r : http.Request) (prefix : string)
  : M W unit :=
  ctx <- unmarshalJSONRequest r ;;
  newObjs <- lift (unmarshalInto ctx (resourceType res) []) ;;
  if negb (length newObjs =? 1)%nat then fail (errors.New "expected one object in POST")
  else
    d <- Index0 newObjs ;;
    let newObj : interface := Some {| TypeOf := resourceType res; data := d |} in
    newObj <- match controller res with
              | Some c => call (HookCreate newObj) (Controller.Create c r newObj)
              | None => ret newObj
              end ;;
    id <- call (SourceCreate newObj) (DataSource.Create (source res) newObj) ;;
    w_Header_Set "Location" (prefix +:+ name res +:+ "/" +:+ id) ;;
    req <- build_request r ;;
    obj <- call (SourceFindOne id req) (DataSource.FindOne (source res) id req) ;;
    respondWith obj http.StatusCreated.

(** [handleUpdate] (api.go, lines 251-282); the slice starts with the
    record [FindOne] returned in its one slot. *)
Definition handleUpdate (res : resource W) (r : http.Request) (ps : httprouter.Params)
  : M W unit :=
  let id := httprouter.ByName ps "id" in
  req <- build_request r ;;
  obj <- call (SourceFindOne id req) (DataSource.FindOne (source res) id req) ;;
  ctx <- unmarshalJSONRequest r ;;
  d <- assignable (resourceType res) obj ;;
  updatingObjs <- lift (unmarshalInto ctx (resourceType res) [d]) ;;
  if negb (length updatingObjs =? 1)%nat then fail (errors.New "expected one object in PUT")
  else
    d' <- Index0 updatingObjs ;;
    let updatingObj : interface := Some {| TypeOf := resourceType res; data := d' |} in
    updatingObj <- match controller res with
                   | Some c => call (HookUpdate updatingObj) (Controller.Update c r updatingObj)
                   | None => ret updatingObj
                   end ;;
    call (SourceUpdate updatingObj) (DataSource.Update (source res) updatingObj) ;;
    w_WriteHeader http.StatusNoContent.

(** [handleDelete] (api.go, lines 284-298). *)
Definition handleDelete (res : resource W) (r : http.Request) (ps : httprouter.Params)
  : M W unit :=
  let id := httprouter.ByName ps "id" in
  match controller res with
  | Some c => call (HookDelete id) (Controller.Delete c r id)
  | None => ret ()
  end ;;
  call (SourceDelete (httprouter.ByName ps "id"))
       (DataSource.Delete (source res) (httprouter.ByName ps "id")) ;;
  w_WriteHeader http.StatusNoContent.

(** The body every route closure of [addResource] shares:
    [err := handler(...); if err != nil { handleError(err, w) }]. *)
Definition or_handleError (handler : M W unit) : M W unit :=
  λ st, match handler st with
        | (Fail err, st') => handleError err st'
        | other => other
        end.

Definition optionsCollection : M W unit :=
  w_Header_Set "Allow" "GET,POST,OPTIONS" ;;
  w_WriteHeader http.StatusNoContent.

Definition optionsItem : M W unit :=
  w_Header_Set "Allow" "GET,PUT,DELETE,OPTIONS" ;;
  w_WriteHeader http.StatusNoContent.

End handlers.

(** *** The API and the registration of a resource *)

(** The five verbs of a resource that reach the collaborators. *)
Inductive Verb : Type := List_ | Read | Create | Update | Delete.

(** A route closure of [addResource].  The closures of one resource share
    the variable [res], which [addResource] also returns by address: [res]
    is the address of that variable in the store of the API. *)
Inductive Handler : Type :=
  | OptionsCollection
  | OptionsItem
  | Serve (v : Verb) (res : nat).

(** [API] is a REST JSONAPI. *)
Record API (W : Type) : Type := {
  router : list (httprouter.Route Handler);
  (** Route prefix, including slashes *)
  prefix : string;
  (** the [res] variables the closures captured *)
  store : list (resource W);
}.
Arguments router {W} _.
Arguments prefix {W} _.
Arguments store {W} _.

(** A registration call returns, or panics. *)
Inductive Setup (A : Type) : Type :=
  | Done (a : A)
  | Panics (reason : string).
Arguments Done {A} a.
Arguments Panics {A} reason.

(** [NewAPI] returns an initialized API instance; [prefix] is added in
    front of all endpoints, with an initial and a trailing slash. *)
Definition NewAPI {W} (prefix : string) : API W :=
  let prefix := strings.Trim prefix "/" in
  let prefix :=
    if (0 <? String.length prefix)%nat then "/" +:+ prefix +:+ "/" else "/" in
  {| router := []; prefix := prefix; store := [] |}.

(** The calls [api.router.Handle(...)] of one registration, in order; the
    first one that panics ends the registration and leaves the routes
    registered before it. *)
Fixpoint Handle_all (calls : list (string * string * Handler))
    (routes : list (httprouter.Route Handler))
  : Setup unit * list (httprouter.Route Handler) :=
  match calls with
  | [] => (Done (), routes)
  | (m, p, h) :: calls' =>
      match httprouter.Handle m p h routes with
      | Some routes' => Handle_all calls' routes'
      | None => (Panics "httprouter: the route cannot be registered", routes)
      end
  end.

(** [res.controller = controller] *)
Definition set_controller {W} (c : Controller.t W) (res : resource W) : resource W :=
  {| resourceType := resourceType res; name := name res; source := source res;
     controller := Some c |}.

Section registration.

Context {W : Type} `{Package}.

(** The seven routes of a resource with name [name] whose closures share
    the variable at [addr]. *)
Definition routes_of (prefix name : string) (addr : nat)
  : list (string * string * Handler) :=
  let collection := prefix +:+ name in
  let item := collection +:+ "/:id" in
  [ ("OPTIONS", collection, OptionsCollection);
    ("OPTIONS", item, OptionsItem);
    ("GET", collection, Serve List_ addr);
    ("GET", item, Serve Read addr);
    ("POST", collection, Serve Create addr);
    ("DELETE", item, Serve Delete addr);
    ("PUT", item, Serve Update addr) ].

(** The route a call of [router.Handle] adds. *)
Definition route_of (c : string * string * Handler) : httprouter.Route Handler :=
  {| httprouter.method := c.1.1; httprouter.path := c.1.2; httprouter.handle := c.2 |}.

(** [addResource]: the address of [res], or a panic, and the API it
    leaves behind. *)
Definition addResource (api : API W) (prototype : interface) (source : DataSource.t W)
  : Setup nat * API W :=
  match TypeOf <$> prototype with
  | None => (Panics "runtime error: invalid memory address or nil pointer dereference", api)
  | Some resourceType =>
      if decide (reflect.kind resourceType ≠ reflect.Struct) then
        (Panics "pass an empty resource struct to AddResource!", api)
      else
        let name := jsonify (pluralize (reflect.name resourceType)) in
        let res := {| resourceType := resourceType; name := name;
                      source := source; controller := None |} in
        let addr := length (store api) in
        let '(r, routes) := Handle_all (routes_of (prefix api) name addr) (router api) in
        let api' := {| router := routes; prefix := prefix api;
                       store := store api ++ [res] |} in
        match r with
        | Done _ => (Done addr, api')
        | Panics reason => (Panics reason, api')
        end
  end.

(** [AddResource] registers a data source for the given resource. *)
Definition AddResource (api : API W) (prototype : interface) (source : DataSource.t W)
  : Setup unit * API W :=
  match addResource api prototype source with
  | (Done _, api') => (Done (), api')
  | (Panics reason, api') => (Panics reason, api')
  end.

(** [AddResourceWithController] does the same as [AddResource] but also
    couples a custom [Controller]: [res.controller = controller] writes
    the variable the closures share. *)
Definition AddResourceWithController (api : API W) (prototype : interface)
    (source : DataSource.t W) (c : Controller.t W) : Setup unit * API W :=
  match addResource api prototype source with
  | (Done addr, api') =>
      (Done (),
       {| router := router api'; prefix := prefix api';
          store := alter (set_controller c) addr (store api') |})
  | (Panics reason, api') => (Panics reason, api')
  end.

(** The handler of a verb. *)
Definition handler (v : Verb) (res : resource W) (r : http.Request)
    (ps : httprouter.Params) (prefix : string) : M W unit :=
  match v with
  | List_ => handleIndex res r
  | Read => handleRead res r ps
  | Create => handleCreate res r prefix
  | Update => handleUpdate res r ps
  | Delete => handleDelete res r ps
  end.

(** Running a route closure of [api] on a request. *)
Definition run (api : API W) (h : Handler) (r : http.Request) (ps : httprouter.Params)
  : M W unit :=
  match h with
  | OptionsCollection => optionsCollection
  | OptionsItem => optionsItem
  | Serve v addr =>
      match store api !! addr with
      | Some res => or_handleError (handler v res r ps (prefix api))
      | None => panic "runtime error: invalid memory address or nil pointer dereference"
      end
  end.

End registration.

(** ** The Document Codec

    [unmarshalInto] lives in a file of the package that is not under src/.
    What follows is its contract in the spec (4.2), over the three choices
    the spec leaves open: the normalisation of a field name to its wire key
    ([jsonify]), which documents describe a list ([listOf]), and which wire
    value converts to a field of which kind ([convert]). *)

(** The first value stored under [k]. *)
Fixpoint assoc {A} (k : string) (l : list (string * A)) : option A :=
  match l with
  | [] => None
  | (k', a) :: l' => if String.eqb k' k then Some a else assoc k l'
  end.

(** The field [f] of a record payload. *)
Definition field (d : Data) (f : string) : option Data :=
  match d with
  | DStruct fs => assoc f fs
  | _ => None
  end.

(** The zero value of a type of kind [k]. *)
Definition zero (k : reflect.Kind) : Data :=
  match k with
  | reflect.Bool => DBool false
  | reflect.Int | reflect.Int8 | reflect.Int16 | reflect.Int32 | reflect.Int64
  | reflect.Uint | reflect.Uint8 | reflect.Uint16 | reflect.Uint32 | reflect.Uint64
  | reflect.Uintptr => DInt 0
  | reflect.Float32 | reflect.Float64 | reflect.Complex64 | reflect.Complex128 => DFloat "0"
  | reflect.String => DString ""
  | reflect.Array => DList []
  | reflect.Struct => DStruct []
  | _ => DNil
  end.

(** The zero value of a struct type. *)
Definition zeroValue (t : reflect.rtype) : Data :=
  DStruct (map (λ fk, (fk.1, zero fk.2)) (reflect.fields t)).

Definition DecodeError (f : string) : error := ForeignError ("DecodeError: " +:+ f).

Section codec.

Variable jsonify_ : string → string.
Variable listOf : gmap string JSON → option (list JSON).
Variable convert : reflect.Kind → JSON → option Data.

(** Modelled from the spec: the field-present-only assignment of
    [unmarshalInto], which is not under src/.  Spec 4.2: "only keys present
    in the wire document overwrite the corresponding fields, all other
    fields retain the pre-populated value", and "type mismatches (wire value
    cannot convert to the field's declared type) fail with a DecodeError
    identifying the offending field". *)
Fixpoint assignFields (fs : list (string * reflect.Kind)) (o : gmap string JSON)
    (target : Data) : Result (list (string * Data)) :=
  match fs with
  | [] => Ok []
  | (f, k) :: fs' =>
      let v := match o !! jsonify_ f with
               | None => Some (default (zero k) (field target f))
               | Some j => convert k j
               end in
      match v with
      | None => Err (DecodeError f)
      | Some v =>
          match assignFields fs' o target with
          | Ok rest => Ok ((f, v) :: rest)
          | Err e => Err e
          end
      end
  end.

Definition decodeOne (t : reflect.rtype) (o : gmap string JSON) (target : Data)
  : Result Data :=
  match assignFields (reflect.fields t) o target with
  | Ok fs => Ok (DStruct fs)
  | Err e => Err e
  end.

Definition wireObject (j : JSON) : Result (gmap string JSON) :=
  match j with
  | JObject members =>
      Ok (foldl (λ (m : gmap string JSON) (kv : string * JSON), <[kv.1 := kv.2]> m)
            ∅ members)
  | _ => Err (errors.New "expected an object")
  end.

Fixpoint wireObjects_of (items : list JSON) : Result (list (gmap string JSON)) :=
  match items with
  | [] => Ok []
  | j :: items' =>
      match wireObject j, wireObjects_of items' with
      | Ok o, Ok os => Ok (o :: os)
      | Err e, _ => Err e
      | _, Err e => Err e
      end
  end.

(** Modelled from the spec: the normalisation of [unmarshalInto].  Spec
    4.2: "Decode must accept either a single-object document or a document
    describing a list, always normalizing into a sequence of zero or more"
    records. *)
Definition wireObjects (ctx : gmap string JSON) : Result (list (gmap string JSON)) :=
  match listOf ctx with
  | Some items => wireObjects_of items
  | None => Ok [ctx]
  end.

(** Modelled from the spec: the targets of [unmarshalInto].  Spec 4.2: "the
    caller supplies a pre-populated target record (the existing stored
    value)", and "for creates, the target starts as the record type's zero
    value": an object of the document is assigned onto the pre-populated
    record at its position, or onto a new zero value when the slice has
    none there. *)
Fixpoint decodeAll (os : list (gmap string JSON)) (t : reflect.rtype) (slice : list Data)
  : Result (list Data) :=
  match os with
  | [] => Ok slice
  | o :: os' =>
      let '(target, slice') :=
        match slice with
        | [] => (zeroValue t, [])
        | d :: ds => (d, ds)
        end in
      match decodeOne t o target with
      | Err e => Err e
      | Ok d' =>
          match decodeAll os' t slice' with
          | Ok rest => Ok (d' :: rest)
          | Err e => Err e
          end
      end
  end.

(** Modelled from the spec: [unmarshalInto(ctx, structType, &sliceVal)],
    which is not under src/ (spec 4.2, contract [Decode]). *)
Definition unmarshalInto_spec (ctx : gmap string JSON) (t : reflect.rtype)
    (slice : list Data) : Result (list Data) :=
  match wireObjects ctx with
  | Ok os => decodeAll os t slice
  | Err e => Err e
  end.

End codec.

(** The package with the codec of the spec. *)
Definition spec_Package (jsonify_ pluralize_ : string → string)
    (marshal : interface → Result string) (marshalError_ : HTTPError → string)
    (listOf : gmap string JSON → option (list JSON))
    (convert : reflect.Kind → JSON → option Data) : Package :=
  {| jsonify := jsonify_; pluralize := pluralize_; MarshalToJSON := marshal;
     marshalError := marshalError_;
     unmarshalInto := unmarshalInto_spec jsonify_ listOf convert |}.

(** ** A blog: one resource over an in-memory data source

    A concrete package, data source and controllers, on which the
    statements below are run. *)

Module Blog.

Definition lower (c : ascii) : ascii :=
  let n := nat_of_ascii c in
  if ((65 <=? n) && (n <=? 90))%nat then ascii_of_nat (n + 32) else c.

(** Wire keys are in lower case. *)
Fixpoint jsonify (s : string) : string :=
  match s with
  | String c s' => String (lower c) (jsonify s')
  | EmptyString => EmptyString
  end.

Definition pluralize (s : string) : string := s +:+ "s".

Fixpoint digit_string (fuel : nat) (n : Z) (acc : string) : string :=
  match fuel with
  | O => acc
  | S fuel' =>
      let acc' := String (ascii_of_nat (Z.to_nat (48 + n mod 10))) acc in
      if n / 10 =? 0 then acc' else digit_string fuel' (n / 10) acc'
  end.

(** The decimal numeral of a natural number. *)
Definition decimal (n : Z) : string := digit_string (S (Z.to_nat n)) n "".

(** A string between quotation marks. *)
Definition quoted (s : string) : string :=
  String json.dquote (s +:+ String json.dquote "").

(** A JSON text written with apostrophes for its quotation marks. *)
Fixpoint js (s : string) : string :=
  match s with
  | EmptyString => EmptyString
  | String c s' => String (if Ascii.eqb c "'" then json.dquote else c) (js s')
  end.

Fixpoint render (fuel : nat) (d : Data) : string :=
  match fuel with
  | O => ""
  | S fuel' =>
      match d with
      | DNil => "null"
      | DBool true => "true"
      | DBool false => "false"
      | DInt n => if n <? 0 then "-" +:+ decimal (- n) else decimal n
      | DFloat lexeme => lexeme
      | DString s => quoted s
      | DList items =>
          "[" +:+ String.concat "," (map (render fuel') items) +:+ "]"
      | DStruct fs =>
          "{" +:+ String.concat ","
                    (map (λ fv, quoted (jsonify fv.1) +:+ ":" +:+ render fuel' fv.2) fs)
              +:+ "}"
      end
  end.

Definition MarshalToJSON (obj : interface) : Result string :=
  match obj with
  | None => Ok "null"
  | Some v => Ok (render 8 (data v))
  end.

Definition marshalError (e : HTTPError) : string :=
  "{" +:+ quoted "errors" +:+ ":" +:+ decimal (Z.of_nat (length (Errors e))) +:+ "}".

(** A document with an array under ["data"] describes a list. *)
Definition listOf (ctx : gmap string JSON) : option (list JSON) :=
  match ctx !! "data" with
  | Some (JArray items) => Some items
  | _ => None
  end.

Fixpoint number_of (s : string) (acc : Z) : option Z :=
  match s with
  | EmptyString => Some acc
  | String c s' =>
      if json.is_digit c then number_of s' (acc * 10 + (Z.of_nat (nat_of_ascii c) - 48))
      else None
  end.

Definition convert (k : reflect.Kind) (j : JSON) : option Data :=
  match k, j with
  | reflect.Bool, JBool b => Some (DBool b)
  | reflect.Int, JNumber (String "-" lexeme) => DInt ∘ Z.opp <$> number_of lexeme 0
  | reflect.Int, JNumber lexeme => DInt <$> number_of lexeme 0
  | reflect.String, JString s => Some (DString s)
  | _, _ => None
  end.

#[global] Instance package : Package :=
  spec_Package jsonify pluralize MarshalToJSON marshalError listOf convert.

Definition Post : reflect.rtype :=
  {| reflect.kind := reflect.Struct; reflect.name := "Post";
     reflect.fields := [("ID", reflect.String); ("Title", reflect.String);
                        ("Likes", reflect.Int)] |}.

Definition Posts : reflect.rtype :=
  {| reflect.kind := reflect.Slice; reflect.name := ""; reflect.fields := [] |}.

Definition PtrToPost : reflect.rtype :=
  {| reflect.kind := reflect.Ptr; reflect.name := ""; reflect.fields := [] |}.

Definition post (id title : string) (likes : Z) : Data :=
  DStruct [("ID", DString id); ("Title", DString title); ("Likes", DInt likes)].

(** The world: the stored posts by ID, and the next ID. *)
Record World : Type := {
  posts : gmap string Data;
  next : Z;
}.

Definition notFound : error :=
  HTTPErrorValue {| status := 404; msg := "post not found"; Errors := [] |}.

Definition forbidden : error :=
  HTTPErrorValue {| status := 403; msg := "forbidden";
                    Errors := [JObject [("title", JString "not allowed")]] |}.

Definition set_field (f : string) (v : Data) (d : Data) : Data :=
  match d with
  | DStruct fs => DStruct (map (λ fv, if String.eqb fv.1 f then (f, v) else fv) fs)
  | _ => d
  end.

Definition id_of (d : Data) : string :=
  match field d "ID" with
  | Some (DString s) => s
  | _ => ""
  end.

Definition memory : DataSource.t World :=
  {| DataSource.FindAll := λ _ w,
       (Ok (Some {| TypeOf := Posts; data := DList (snd <$> map_to_list (posts w)) |}), w);
     DataSource.FindOne := λ id _ w,
       match posts w !! id with
       | Some d => (Ok (Some {| TypeOf := Post; data := d |}), w)
       | None => (Err notFound, w)
       end;
     DataSource.FindMultiple := λ ids _ w,
       (Ok (Some {| TypeOf := Posts; data := DList (omap (λ id, posts w !! id) ids) |}), w);
     DataSource.Create := λ obj w,
       match obj with
       | Some v =>
           let id := decimal (next w) in
           (Ok id, {| posts := <[id := set_field "ID" (DString id) (data v)]> (posts w);
                      next := next w + 1 |})
       | None => (Err (errors.New "nothing to create"), w)
       end;
     DataSource.Delete := λ id w,
       match posts w !! id with
       | Some _ => (Ok (), {| posts := delete id (posts w); next := next w |})
       | None => (Err notFound, w)
       end;
     DataSource.Update := λ obj w,
       match obj with
       | Some v =>
           match posts w !! id_of (data v) with
           | Some _ => (Ok (), {| posts := <[id_of (data v) := data v]> (posts w);
                                  next := next w |})
           | None => (Err notFound, w)
           end
       | None => (Err (errors.New "nothing to update"), w)
       end |}.

(** A data source that hands out an ID and stores nothing. *)
Definition forgetful : DataSource.t World :=
  {| DataSource.FindAll := DataSource.FindAll memory;
     DataSource.FindOne := DataSource.FindOne memory;
     DataSource.FindMultiple := DataSource.FindMultiple memory;
     DataSource.Create := λ obj w,
       (Ok (decimal (next w)), {| posts := posts w; next := next w + 1 |});
     DataSource.Delete := DataSource.Delete memory;
     DataSource.Update := DataSource.Update memory |}.

(** A controller that lets everything through and counts a like on
    every post it sees created. *)
Definition liking : Controller.t World :=
  {| Controller.FindAll := λ _ objs w, (Ok objs, w);
     Controller.FindOne := λ _ obj w, (Ok obj, w);
     Controller.Create := λ _ obj w,
       (Ok ((λ v, {| TypeOf := TypeOf v; data := set_field "Likes" (DInt 1) (data v) |})
              <$> obj), w);
     Controller.Delete := λ _ _ w, (Ok (), w);
     Controller.Update := λ _ obj w, (Ok obj, w) |}.

(** A controller that vetoes every write. *)
Definition readonly : Controller.t World :=
  {| Controller.FindAll := λ _ objs w, (Ok objs, w);
     Controller.FindOne := λ _ obj w, (Ok obj, w);
     Controller.Create := λ _ _ w, (Err forbidden, w);
     Controller.Delete := λ _ _ w, (Err forbidden, w);
     Controller.Update := λ _ _ w, (Err forbidden, w) |}.

Definition posts_resource (s : DataSource.t World) (c : option (Controller.t World))
  : resource World :=
  {| resourceType := Post; source := s; name := "posts"; controller := c |}.

(** The prototype of the resource, [Post{}]. *)
Definition prototype : interface :=
  Some {| TypeOf := Post; data := zeroValue Post |}.

Definition world0 : World :=
  {| posts := {[ "1" := post "1" "first" 3; "2" := post "2" "second" 0 ]}; next := 3 |}.

Definition start : State World :=
  {| world := world0; writer := http.fresh; trace := [] |}.

Definition request (m p : string) (q : list (string * string)) (body : string)
  : http.Request :=
  {| http.Method := m; http.Path := p; http.RawQuery := q; http.Body := Ok body |}.


(** A data source that returns pointers to its posts, not the posts. *)
Definition pointers : DataSource.t World :=
  {| DataSource.FindAll := DataSource.FindAll memory;
     DataSource.FindOne := λ id _ w,
       match posts w !! id with
       | Some d => (Ok (Some {| TypeOf := PtrToPost; data := d |}), w)
       | None => (Err notFound, w)
       end;
     DataSource.FindMultiple := DataSource.FindMultiple memory;
     DataSource.Create := DataSource.Create memory;
     DataSource.Delete := DataSource.Delete memory;
     DataSource.Update := DataSource.Update memory |}.

(** A controller that hides every post from the reader. *)
Definition secretive : Controller.t World :=
  {| Controller.FindAll := λ _ _ w, (Err forbidden, w);
     Controller.FindOne := λ _ _ w, (Err forbidden, w);
     Controller.Create := λ _ obj w, (Ok obj, w);
     Controller.Delete := λ _ _ w, (Ok (), w);
     Controller.Update := λ _ obj w, (Ok obj, w) |}.


End Blog.

(** ** Observations on a trace *)

(** The calls that change the data source. *)
Definition is_mutation (ev : Event) : bool :=
  match ev with
  | SourceCreate _ | SourceDelete _ | SourceUpdate _ => true
  | _ => false
  end.

(** The calls into the data source. *)
Definition is_source_call (ev : Event) : bool :=
  match ev with
  | SourceFindAll _ | SourceFindOne _ _ | SourceFindMultiple _ _
  | SourceCreate _ | SourceDelete _ | SourceUpdate _ => true
  | _ => false
  end.



(** What [json.Unmarshal] refuses for a map: a text that is not JSON, and an
    array, a string, a number or a boolean at the top level. *)
Definition refused (parsed : option JSON) : bool :=
  match parsed with
  | None => true
  | Some (JObject _) | Some JNull => false
  | Some _ => true
  end.


(** The Request Context a call hands to the data source. *)
Definition event_request (ev : Event) : option Request :=
  match ev with
  | SourceFindAll req | SourceFindOne _ req | SourceFindMultiple _ req => Some req
  | _ => None
  end.

(** The hook step of a handler: with a controller the hook runs and is
    recorded, without one the object goes on as it is. *)
Definition run_hook {W} (c : option (Controller.t W))
    (hook : Controller.t W → interface → W → Result interface * W)
    (obj : interface) (w : W) : Result interface * W :=
  match c with
  | Some c => hook c obj w
  | None => (Ok obj, w)
  end.

Definition hook_events {W} (c : option (Controller.t W)) (ev : Event) : list Event :=
  match c with
  | Some _ => [ev]
  | None => []
  end.

(** The status a handler writes when it succeeds. *)
Definition success_status (v : Verb) : Z :=
  match v with
  | List_ | Read => http.StatusOK
  | Create => http.StatusCreated
  | Update | Delete => http.StatusNoContent
  end.



(** ** Properties *)

(** *** [strings.Split] and [buildRequest] *)

Lemma Split_nonempty (s : string) (sep : ascii) : strings.Split s sep ≠ [].
Proof.
  destruct s as [|c s]; simpl; [discriminate|].
  destruct (Ascii.eqb c sep); [discriminate|].
  destruct (strings.Split s sep); discriminate.
Qed.

Lemma Split_without_sep (s : string) (sep : ascii) :
  strings.Contains s sep = false → strings.Split s sep = [s].
Proof.
  induction s as [|c s IH]; simpl; [reflexivity|].
  intros Hc. apply orb_false_iff in Hc as [Hc Hs].
  rewrite Hc, (IH Hs). reflexivity.
Qed.

(** The values of [key] in the query string, in order. *)
Lemma Query_fold (pairs : list (string * string)) (m0 : gmap string (list string))
    (key : string) :
  foldl (λ (m : gmap string (list string)) (kv : string * string),
           <[kv.1 := default [] (m !! kv.1) ++ [kv.2]]> m) m0 pairs !! key
  = match (filter (λ kv, kv.1 = key) pairs).*2 with
    | [] => m0 !! key
    | vs => Some (default [] (m0 !! key) ++ vs)
    end.
Proof.
  revert m0. induction pairs as [|[k v] pairs IH]; intros m0; [reflexivity|].
  cbn [foldl]. rewrite IH, filter_cons. cbn [fst snd].
  destruct (decide (k = key)) as [->|Hne].
  - rewrite lookup_insert_eq, fmap_cons. cbn [snd].
    destruct ((filter (λ kv, kv.1 = key) pairs).*2) as [|v' vs]; cbn.
    + reflexivity.
    + rewrite <- app_assoc. reflexivity.
  - rewrite lookup_insert_ne by done. reflexivity.
Qed.

Lemma Query_lookup (r : http.Request) (key : string) :
  http.Query r !! key
  = match (filter (λ kv, kv.1 = key) (http.RawQuery r)).*2 with
    | [] => None
    | vs => Some vs
    end.
Proof.
  unfold http.Query. rewrite Query_fold. rewrite lookup_empty. reflexivity.
Qed.

Lemma filter_head_assoc (pairs : list (string * string)) (key : string) :
  head ((filter (λ kv, kv.1 = key) pairs).*2) = assoc key pairs.
Proof.
  induction pairs as [|[k v] pairs IH]; simpl; [reflexivity|].
  rewrite filter_cons. simpl.
  destruct (decide (k = key)) as [->|Hne].
  - rewrite String.eqb_refl. reflexivity.
  - destruct (String.eqb_spec k key); [contradiction|]. exact IH.
Qed.

(** The first value of [key] in the query string is [values[0]]. *)
Lemma Query_head (r : http.Request) (key : string) :
  http.Query r !! key ≫= head = assoc key (http.RawQuery r).
Proof.
  rewrite Query_lookup, <- filter_head_assoc.
  destruct ((filter (λ kv, kv.1 = key) (http.RawQuery r)).*2); reflexivity.
Qed.

Lemma Query_values_nonempty (r : http.Request) (key : string) :
  http.Query r !! key ≠ Some [].
Proof.
  rewrite Query_lookup.
  destruct ((filter (λ kv, kv.1 = key) (http.RawQuery r)).*2); discriminate.
Qed.

(** The loop of [buildRequest] over any [url.Values] without an empty
    list. *)
Lemma buildRequest_fold (q : gmap string (list string)) :
  (∀ key, q !! key ≠ Some []) →
  ∃ params,
    map_fold
      (λ (key : string) (values : list string) (acc : option (gmap string (list string))),
         params ← acc;
         v0 ← values !! 0%nat;
         Some (<[key := strings.Split v0 ","]> params))
      (Some ∅) q = Some params
    ∧ ∀ key, params !! key = (λ v0, strings.Split v0 ",") <$> (q !! key ≫= head).
Proof.
  apply (map_fold_weak_ind
    (λ acc (m : gmap string (list string)),
       (∀ key, m !! key ≠ Some []) →
       ∃ params, acc = Some params
         ∧ ∀ key, params !! key = (λ v0, strings.Split v0 ",") <$> (m !! key ≫= head))).
  - intros _. exists ∅. split; [reflexivity|].
    intros key. rewrite !lookup_empty. reflexivity.
  - intros i x m acc Hi IH Hne.
    destruct IH as (params & -> & Hparams).
    { intros key Hk. destruct (decide (key = i)) as [->|Hki]; [congruence|].
      apply (Hne key). rewrite lookup_insert_ne by done. exact Hk. }
    destruct x as [|v0 x].
    { exfalso. apply (Hne i). apply lookup_insert_eq. }
    simpl. eexists. split; [reflexivity|].
    intros key. destruct (decide (key = i)) as [->|Hki].
    + rewrite !lookup_insert_eq. reflexivity.
    + rewrite !lookup_insert_ne by done. apply Hparams.
Qed.

(** [buildRequest] never runs out of range, and gives every key the split of
    its first value. *)
Lemma buildRequest_spec (r : http.Request) :
  ∃ req, buildRequest r = Some req
    ∧ ∀ key, QueryParams req !! key
             = (λ v0, strings.Split v0 ",") <$> assoc key (http.RawQuery r).
Proof.
  destruct (buildRequest_fold (http.Query r) (Query_values_nonempty r))
    as (params & Hfold & Hparams).
  exists {| QueryParams := params |}. split.
  - unfold buildRequest. rewrite Hfold. reflexivity.
  - intros key. simpl. rewrite Hparams, Query_head. reflexivity.
Qed.

Lemma assoc_is_Some {A} (key : string) (l : list (string * A)) :
  key ∈ l.*1 ↔ is_Some (assoc key l).
Proof.
  induction l as [|[k a] l IH]; simpl.
  - split; [intros Hin; inversion Hin|intros [x Hx]; discriminate].
  - destruct (String.eqb_spec k key) as [->|Hne].
    + split; [eauto|intros _; left].
    + rewrite <- IH. split.
      * intros Hin. inversion Hin; subst; [contradiction|assumption].
      * intros Hin. right. exact Hin.
Qed.

(** *** Running a handler symbolically *)

Ltac unfold_M :=
  unfold respondWith, unmarshalJSONRequest, build_request, Index0, assignable,
    http_Error, w_Header_Set, w_WriteHeader, w_Write, log_Println, on_writer, call,
    emit, lift, bind, ret, fail, panic in *.

Ltac unfold_M_in Hrun :=
  unfold respondWith, unmarshalJSONRequest, build_request, Index0, assignable,
    http_Error, w_Header_Set, w_WriteHeader, w_Write, log_Println, on_writer, call,
    emit, lift, bind, ret, fail, panic in Hrun.

(** Every path through the matches of the goal and of the hypotheses. *)
Ltac paths := repeat (case_match; simplify_eq/=).

(** The events a path added to the trace. *)
Ltac close_trace :=
  first [ exists []; split; [cbn; rewrite app_nil_r; reflexivity|]
        | eexists; split; [cbn; rewrite <- ?app_assoc; cbn; reflexivity|] ].

Ltac new_events := eexists; rewrite <- ?app_assoc; cbn; reflexivity.

Section handler_properties.

Context {W : Type} `{Package}.

(** *** The body of a request *)

Lemma Unmarshal_map_refused (body : string) (m : gmap string JSON) :
  refused (json.parse body) = true ↔ ∃ e, Unmarshal_map body m = Err e.
Proof.
  unfold refused, Unmarshal_map.
  destruct (json.parse body) as [[]|]; split; intros Hr;
    try discriminate; try (destruct Hr; discriminate); eauto.
Qed.

(** *** The Error Translator *)





(** *** The write hooks *)

(** C3. For a resource with a controller: when the Delete, Create or Update
    hook returns an error, the handler returns that error, the only events of
    the request are the ones before and including the hook (for Update, the
    FindOne that fetched the record), so DataSource.Delete, Create or Update
    is never invoked, and nothing is written to the response. *)
Theorem hook_error_aborts_before_mutation (res : resource W) (c : Controller.t W)
    (r : http.Request) (ps : httprouter.Params) (prefix : string) (st : State W) :
  controller res = Some c →
  (∀ e w',
     Controller.Delete c r (httprouter.ByName ps "id") (world st) = (Err e, w') →
     ∃ st', handleDelete res r ps st = (Fail e, st')
       ∧ trace st' = trace st ++ [HookDelete (httprouter.ByName ps "id")]
       ∧ writer st' = writer st)
  ∧ (∀ body ctx d e w',
       http.Body r = Ok body →
       Unmarshal_map body ∅ = Ok ctx →
       unmarshalInto ctx (resourceType res) [] = Ok [d] →
       Controller.Create c r (Some {| TypeOf := resourceType res; data := d |}) (world st)
         = (Err e, w') →
       ∃ st', handleCreate res r prefix st = (Fail e, st')
         ∧ trace st' = trace st
             ++ [HookCreate (Some {| TypeOf := resourceType res; data := d |})]
         ∧ writer st' = writer st)
  ∧ (∀ req old w1 body ctx d e w',
       buildRequest r = Some req →
       DataSource.FindOne (source res) (httprouter.ByName ps "id") req (world st)
         = (Ok (Some old), w1) →
       TypeOf old = resourceType res →
       http.Body r = Ok body →
       Unmarshal_map body ∅ = Ok ctx →
       unmarshalInto ctx (resourceType res) [data old] = Ok [d] →
       Controller.Update c r (Some {| TypeOf := resourceType res; data := d |}) w1
         = (Err e, w') →
       ∃ st', handleUpdate res r ps st = (Fail e, st')
         ∧ trace st' = trace st
             ++ [SourceFindOne (httprouter.ByName ps "id") req;
                 HookUpdate (Some {| TypeOf := resourceType res; data := d |})]
         ∧ writer st' = writer st).
Proof.
  intros Hc. split; [|split].
  - intros e w' Hhook. unfold handleDelete. rewrite Hc. unfold_M. cbn.
    rewrite Hhook. cbn. eexists. split; [reflexivity|]. cbn. done.
  - intros body ctx d e w' Hbody Hctx Hdec Hhook.
    unfold handleCreate. rewrite Hc. unfold_M. cbn.
    rewrite Hbody, Hctx, Hdec. cbn. rewrite Hhook. cbn.
    eexists. split; [reflexivity|]. cbn. done.
  - intros req old w1 body ctx d e w' Hreq Hfind Hty Hbody Hctx Hdec Hhook.
    unfold handleUpdate. rewrite Hc. unfold_M. cbn.
    rewrite Hreq. cbn. rewrite Hfind. cbn. rewrite Hbody, Hctx. cbn.
    rewrite decide_True by done. rewrite Hdec. cbn. rewrite Hhook. cbn.
    eexists. split; [reflexivity|]. cbn. rewrite <- app_assoc. done.
Qed.

(** *** Exactly one object *)


(** *** Create *)

(** C4. For a POST that succeeds on a response that has not been sent: the
    handler calls DataSource.Create on the decoded record as the hook left it,
    sets the Location header to prefix, resource name, a slash and the new ID,
    then calls DataSource.FindOne with the new ID and the Request Context, and
    answers 201 with the encoding of the record FindOne returned; the
    response the client receives carries that Location. *)
Theorem create_answers_created (res : resource W) (r : http.Request) (prefix : string)
    (st : State W) (body : string) (ctx : gmap string JSON) (d : Data)
    (newObj : interface) (w1 : W) (id : string) (w2 : W) (req : Request)
    (obj : interface) (w3 : W) (encoded : string) :
  http.Body r = Ok body →
  Unmarshal_map body ∅ = Ok ctx →
  unmarshalInto ctx (resourceType res) [] = Ok [d] →
  run_hook (controller res) (λ c, Controller.Create c r)
    (Some {| TypeOf := resourceType res; data := d |}) (world st) = (Ok newObj, w1) →
  DataSource.Create (source res) newObj w1 = (Ok id, w2) →
  buildRequest r = Some req →
  DataSource.FindOne (source res) id req w2 = (Ok obj, w3) →
  MarshalToJSON obj = Ok encoded →
  http.sent (writer st) = None →
  ∃ st', handleCreate res r prefix st = (Return (), st')
    ∧ world st' = w3
    ∧ trace st' = trace st
        ++ hook_events (controller res)
             (HookCreate (Some {| TypeOf := resourceType res; data := d |}))
        ++ [SourceCreate newObj;
            HeaderSet "Location" (prefix +:+ name res +:+ "/" +:+ id);
            SourceFindOne id req;
            HeaderSet "Content-Type" "application/json";
            WriteHeader 201;
            Write encoded]
    ∧ http.response_status (writer st') = Some 201
    ∧ http.response_header (writer st') "Location"
      = Some [prefix +:+ name res +:+ "/" +:+ id]
    ∧ http.written (writer st') = http.written (writer st) +:+ encoded.
Proof.
  intros Hbody Hctx Hdec Hhook Hcreate Hreq Hfind Henc Hsent.
  unfold handleCreate. unfold_M. cbn.
  rewrite Hbody, Hctx, Hdec. cbn.
  unfold run_hook, hook_events in *.
  destruct (controller res) as [c|]; cbn;
    [rewrite Hhook|injection Hhook as <- <-]; cbn;
    rewrite Hcreate; cbn; rewrite Hreq; cbn; rewrite Hfind; cbn; rewrite Henc; cbn;
    (eexists; split; [reflexivity|]); cbn;
    unfold http.response_status, http.response_header, http.Write, http.WriteHeader;
    cbn; rewrite Hsent; cbn;
    rewrite lookup_insert_ne by discriminate; rewrite lookup_insert_eq;
    rewrite <- ?app_assoc; done.
Qed.

(** *** Read *)

(** C5. For a GET of an item: the id segment is split on commas; the first
    event of every run is DataSource.FindOne on the ID when the split gives
    exactly one, and otherwise DataSource.FindMultiple on the whole list, and
    no other call into the data source follows; when that call succeeds the
    FindOne hook (if there is a controller) runs on its result, and when the
    hook and the encoding succeed the response is 200 with the encoded
    object. *)
Theorem read_one_or_many (res : resource W) (r : http.Request) (ps : httprouter.Params)
    (st : State W) :
  let ids := strings.Split (httprouter.ByName ps "id") "," in
  ∃ req, buildRequest r = Some req
    ∧ let first := match ids with
                   | [id0] => SourceFindOne id0 req
                   | _ => SourceFindMultiple ids req
                   end in
      (∀ o st', handleRead res r ps st = (o, st') →
         ∃ evs, trace st' = trace st ++ first :: evs
           ∧ Forall (λ ev, is_source_call ev = false) evs)
      ∧ (∀ obj w1 obj' w2 encoded,
           match ids with
           | [id0] => DataSource.FindOne (source res) id0 req (world st)
           | _ => DataSource.FindMultiple (source res) ids req (world st)
           end = (Ok obj, w1) →
           run_hook (controller res) (λ c, Controller.FindOne c r) obj w1 = (Ok obj', w2) →
           MarshalToJSON obj' = Ok encoded →
           http.sent (writer st) = None →
           ∃ st', handleRead res r ps st = (Return (), st')
             ∧ world st' = w2
             ∧ trace st' = trace st
                 ++ first :: hook_events (controller res) (HookFindOne obj)
                 ++ [HeaderSet "Content-Type" "application/json";
                     WriteHeader 200;
                     Write encoded]
             ∧ http.response_status (writer st') = Some 200
             ∧ http.written (writer st') = http.written (writer st) +:+ encoded).
Proof.
  intros ids. destruct (buildRequest_spec r) as (req & Hreq & _).
  exists req. split; [exact Hreq|]. intros first. split.
  - intros o st' Hrun. unfold handleRead in Hrun. fold ids in Hrun.
    unfold_M_in Hrun. rewrite Hreq in Hrun. subst first.
    destruct ids as [|id0 [|id1 ids']]; case_decide; try (exfalso; cbn in *; lia);
      cbn in Hrun; paths;
      (eexists; split; [rewrite <- ?app_assoc; cbn; reflexivity|repeat constructor]).
  - intros obj w1 obj' w2 encoded Hfind Hhook Henc Hsent.
    unfold handleRead. fold ids. unfold_M. rewrite Hreq. subst first.
    unfold run_hook, hook_events in *.
    destruct ids as [|id0 [|id1 ids']]; case_decide; try (exfalso; cbn in *; lia);
      cbn; cbn in Hfind; rewrite Hfind; cbn;
      (destruct (controller res) as [c|]; cbn;
       [rewrite Hhook | injection Hhook as <- <-]; cbn; rewrite Henc; cbn;
       eexists; (split; [reflexivity|]); cbn;
       unfold http.response_status, http.Write, http.WriteHeader; cbn;
       rewrite Hsent; cbn; rewrite <- ?app_assoc; done).
Qed.

(** *** A body that is not an object *)

(** C10, as the code has it. For a POST or a PUT whose body is not a JSON
    text, or is an array, a string, a number or a boolean at the top level:
    [json.Unmarshal] returns an error, the POST handler returns it without a
    single event, and the PUT handler fails after the FindOne that fetched the
    record and before anything else (with that error when FindOne
    succeeded), so neither DataSource.Create nor DataSource.Update is
    invoked. *)
Theorem refused_body_stops_before_mutation (res : resource W) (r : http.Request)
    (ps : httprouter.Params) (prefix : string) (st : State W) (body : string) :
  http.Body r = Ok body →
  refused (json.parse body) = true →
  ∃ e req, Unmarshal_map body ∅ = Err e
    ∧ buildRequest r = Some req
    ∧ handleCreate res r prefix st = (Fail e, st)
    ∧ ∀ o st', handleUpdate res r ps st = (o, st') →
        (∃ e', o = Fail e')
        ∧ (∀ obj w1,
             DataSource.FindOne (source res) (httprouter.ByName ps "id") req (world st)
               = (Ok obj, w1) → o = Fail e)
        ∧ trace st' = trace st ++ [SourceFindOne (httprouter.ByName ps "id") req]
        ∧ writer st' = writer st.
Proof.
  intros Hbody Href.
  apply (Unmarshal_map_refused body ∅) in Href as [e He].
  destruct (buildRequest_spec r) as (req & Hreq & _).
  exists e, req. split; [exact He|]. split; [exact Hreq|]. split.
  - unfold handleCreate. unfold_M. cbn. rewrite Hbody, He. cbn. reflexivity.
  - intros o st' Hrun. unfold handleUpdate in Hrun. unfold_M_in Hrun.
    rewrite Hreq, Hbody, He in Hrun. cbn in Hrun.
    destruct (DataSource.FindOne (source res) (httprouter.ByName ps "id") req (world st))
      as [[obj|e'] w1] eqn:Hfind; cbn in Hrun; simplify_eq/=; eauto 10.
    repeat split; eauto. intros; simplify_eq.
Qed.

(** *** Every path of every handler *)



(** *** The Request Context *)

(** C8. The Request Context of a request gives every key of the query string
    the list obtained by splitting its value (for a repeated key: the value of
    its first occurrence) on commas, and no other key; a value without a comma
    is the one-element list; and every Request Context a handler hands to the
    data source is that one. *)
Theorem query_params_are_split (r : http.Request) :
  ∃ req, buildRequest r = Some req
    ∧ (∀ key, QueryParams req !! key
              = (λ v0, strings.Split v0 ",") <$> assoc key (http.RawQuery r))
    ∧ (∀ key, key ∈ (http.RawQuery r).*1 ↔ is_Some (QueryParams req !! key))
    ∧ (∀ key v0, assoc key (http.RawQuery r) = Some v0 →
         strings.Contains v0 "," = false → QueryParams req !! key = Some [v0])
    ∧ (∀ (v : Verb) (res : resource W) ps prefix st o st',
         handler v res r ps prefix st = (o, st') →
         ∃ evs, trace st' = trace st ++ evs
           ∧ Forall (λ ev, ∀ q, event_request ev = Some q → q = req) evs).
Proof.
  destruct (buildRequest_spec r) as (req & Hreq & Hparams).
  exists req. split; [exact Hreq|]. split; [exact Hparams|]. split; [|split].
  - intros key. rewrite Hparams, fmap_is_Some. apply assoc_is_Some.
  - intros key v0 Hv0 Hsep. rewrite Hparams, Hv0. simpl.
    rewrite Split_without_sep by exact Hsep. reflexivity.
  - intros v res ps prefix st o st' Hrun.
    destruct v; unfold handler in Hrun;
      [unfold handleIndex in Hrun|unfold handleRead in Hrun|unfold handleCreate in Hrun
      |unfold handleUpdate in Hrun|unfold handleDelete in Hrun];
      unfold_M_in Hrun; rewrite ?Hreq in Hrun; cbn in Hrun;
      paths; close_trace; repeat constructor; cbn; intros; simplify_eq; reflexivity.
Qed.

End handler_properties.

(** *** The codec: field-present-only assignment *)

Section codec_properties.

Variable jsonify_ : string → string.
Variable listOf : gmap string JSON → option (list JSON).
Variable convert : reflect.Kind → JSON → option Data.

(** A field whose key is absent from the document keeps the value of the
    target. *)
Lemma assignFields_absent (fs : list (string * reflect.Kind)) (o : gmap string JSON)
    (target : Data) (out : list (string * Data)) (f : string) (x : Data) :
  assignFields jsonify_ convert fs o target = Ok out →
  f ∈ fs.*1 →
  o !! jsonify_ f = None →
  field target f = Some x →
  assoc f out = Some x.
Proof.
  revert out. induction fs as [|[f' k] fs IH]; intros out Hout Hin Hkey Hx.
  - inversion Hin.
  - simpl in Hout.
    destruct (String.eqb_spec f' f) as [->|Hne].
    + rewrite Hkey, Hx in Hout. simpl in Hout.
      destruct (assignFields jsonify_ convert fs o target); [|discriminate].
      injection Hout as <-. simpl. rewrite String.eqb_refl. reflexivity.
    + destruct (match o !! jsonify_ f' with
                | Some j => convert k j
                | None => Some (default (zero k) (field target f'))
                end) as [v|]; [|discriminate].
      destruct (assignFields jsonify_ convert fs o target) as [rest|] eqn:Hrest;
        [|discriminate].
      injection Hout as <-. simpl.
      destruct (String.eqb_spec f' f); [contradiction|].
      apply IH; [reflexivity| |assumption|assumption].
      simpl in Hin. inversion Hin; subst; [contradiction|assumption].
Qed.

(** A field whose key is present takes the converted value of the
    document. *)
Lemma assignFields_present (fs : list (string * reflect.Kind)) (o : gmap string JSON)
    (target : Data) (out : list (string * Data)) (f : string) (j : JSON) :
  assignFields jsonify_ convert fs o target = Ok out →
  f ∈ fs.*1 →
  o !! jsonify_ f = Some j →
  ∃ k v, (f, k) ∈ fs ∧ convert k j = Some v ∧ assoc f out = Some v.
Proof.
  revert out. induction fs as [|[f' k] fs IH]; intros out Hout Hin Hkey.
  - inversion Hin.
  - simpl in Hout.
    destruct (String.eqb_spec f' f) as [->|Hne].
    + rewrite Hkey in Hout.
      destruct (convert k j) as [v|] eqn:Hv; [|discriminate].
      destruct (assignFields jsonify_ convert fs o target); [|discriminate].
      injection Hout as <-. exists k, v. split; [left|]. split; [exact Hv|].
      simpl. rewrite String.eqb_refl. reflexivity.
    + destruct (match o !! jsonify_ f' with
                | Some j => convert k j
                | None => Some (default (zero k) (field target f'))
                end) as [v|]; [|discriminate].
      destruct (assignFields jsonify_ convert fs o target) as [rest|] eqn:Hrest;
        [|discriminate].
      injection Hout as <-.
      destruct (IH rest) as (k' & v' & Hk' & Hv' & Hassoc); [reflexivity| |assumption|].
      { simpl in Hin. inversion Hin; subst; [contradiction|assumption]. }
      exists k', v'. split; [right; exact Hk'|]. split; [exact Hv'|].
      simpl. destruct (String.eqb_spec f' f); [contradiction|]. exact Hassoc.
Qed.

(** The fields of a decoded record are those of the type, in its order. *)
Lemma assignFields_names (fs : list (string * reflect.Kind)) (o : gmap string JSON)
    (target : Data) (out : list (string * Data)) :
  assignFields jsonify_ convert fs o target = Ok out → out.*1 = fs.*1.
Proof.
  revert out. induction fs as [|[f k] fs IH]; intros out Hout; simpl in Hout.
  - injection Hout as <-. reflexivity.
  - destruct (match o !! jsonify_ f with
              | Some j => convert k j
              | None => Some (default (zero k) (field target f))
              end) as [v|]; [|discriminate].
    destruct (assignFields jsonify_ convert fs o target) as [rest|] eqn:Hrest;
      [|discriminate].
    injection Hout as <-. simpl. f_equal. apply IH. reflexivity.
Qed.

Context {W : Type}.
Variable pluralize_ : string → string.
Variable marshal : interface → Result string.
Variable marshalError_ : HTTPError → string.

(** C1. For a PUT on a resource, with the codec of the spec: the handler
    first calls FindOne with the ID and the Request Context; the body is
    decoded onto the record FindOne returned, so that every field of that
    record whose key is absent from the incoming object is retained and
    every field whose key is present takes the converted value of the
    document; then the Update hook runs on the merged record when there is a
    controller; then DataSource.Update is called on the record the hook left;
    and on success the answer is 204 and nothing is written to the body. *)
Theorem update_merges_into_current_record (res : resource W) (r : http.Request)
    (ps : httprouter.Params) (st : State W) (req : Request) (old : Value) (w1 : W)
    (body : string) (doc o : gmap string JSON) (merged : Data) (updated : interface)
    (w2 w3 : W) :
  let P := spec_Package jsonify_ pluralize_ marshal marshalError_ listOf convert in
  let id := httprouter.ByName ps "id" in
  let t := resourceType res in
  buildRequest r = Some req →
  DataSource.FindOne (source res) id req (world st) = (Ok (Some old), w1) →
  TypeOf old = t →
  http.Body r = Ok body →
  Unmarshal_map body ∅ = Ok doc →
  wireObjects listOf doc = Ok [o] →
  decodeOne jsonify_ convert t o (data old) = Ok merged →
  run_hook (controller res) (λ c, Controller.Update c r)
    (Some {| TypeOf := t; data := merged |}) w1 = (Ok updated, w2) →
  DataSource.Update (source res) updated w2 = (Ok (), w3) →
  http.sent (writer st) = None →
  (∀ f x, f ∈ (reflect.fields t).*1 → o !! jsonify_ f = None →
          field (data old) f = Some x → field merged f = Some x)
  ∧ (∀ f j, f ∈ (reflect.fields t).*1 → o !! jsonify_ f = Some j →
            ∃ k v, (f, k) ∈ reflect.fields t ∧ convert k j = Some v
                   ∧ field merged f = Some v)
  ∧ ∃ st', handleUpdate (H := P) res r ps st = (Return (), st')
      ∧ world st' = w3
      ∧ trace st' = trace st
          ++ SourceFindOne id req
          :: hook_events (controller res) (HookUpdate (Some {| TypeOf := t; data := merged |}))
          ++ [SourceUpdate updated; WriteHeader 204]
      ∧ http.response_status (writer st') = Some 204
      ∧ http.written (writer st') = http.written (writer st).
Proof.
  intros P id t Hreq Hfind Hty Hbody Hdoc Hobjs Hmerge Hhook Hupdate Hsent.
  unfold decodeOne in Hmerge.
  destruct (assignFields jsonify_ convert (reflect.fields t) o (data old))
    as [out|] eqn:Hout; [|discriminate].
  injection Hmerge as <-.
  split; [|split].
  - intros f x Hin Hkey Hx. simpl. eapply assignFields_absent; eassumption.
  - intros f j Hin Hkey. simpl. eapply assignFields_present; eassumption.
  - unfold handleUpdate. unfold_M. fold id t. rewrite Hreq. cbn.
    rewrite Hfind. cbn. rewrite Hbody, Hdoc. cbn.
    rewrite decide_True by exact Hty.
    unfold unmarshalInto_spec. rewrite Hobjs. cbn.
    unfold decodeOne. fold t. rewrite Hout. cbn.
    unfold run_hook, hook_events in *.
    destruct (controller res) as [c|]; cbn;
      [rewrite Hhook|injection Hhook as <- <-]; cbn; rewrite Hupdate; cbn;
      (eexists; split; [reflexivity|]); cbn;
      unfold http.response_status, http.WriteHeader; rewrite Hsent; cbn;
      rewrite <- ?app_assoc; done.
Qed.

End codec_properties.

(** *** Registration *)

Lemma append_length (s t : string) :
  String.length (s +:+ t) = (String.length s + String.length t)%nat.
Proof. induction s as [|c s IH]; simpl; [reflexivity|]. rewrite IH. reflexivity. Qed.

(** The collection path and the item path of a resource differ. *)
Lemma item_path_differs (p : string) :
  String.eqb p (p +:+ "/:id") = false ∧ String.eqb (p +:+ "/:id") p = false.
Proof.
  split; apply String.eqb_neq; intros Heq; apply (f_equal String.length) in Heq;
    rewrite append_length in Heq; simpl in Heq; lia.
Qed.




Section registration_properties.

Context {W : Type} `{Package}.


(** X6. The closures of a resource read the variable [res] when they run:
    the controller [AddResourceWithController] stores after the registration
    is the controller of every route of the resource. *)
Lemma controller_is_shared (api api' : API W) (v : Value) (source : DataSource.t W)
    (c : Controller.t W) (verb : Verb) (r : http.Request) (ps : httprouter.Params) :
  AddResourceWithController api (Some v) source c = (Done (), api') →
  ∃ res, store api' !! length (store api) = Some res
    ∧ controller res = Some c
    ∧ run api' (Serve verb (length (store api))) r ps
      = or_handleError (handler verb res r ps (prefix api')).
Proof.
  unfold AddResourceWithController, addResource. cbn -[Handle_all routes_of].
  case_decide; [discriminate|].
  destruct (Handle_all _ _) as [[[]|reason] routes]; [|discriminate].
  intros Hadd. injection Hadd as <-. cbn.
  rewrite alter_app_r_alt by lia. rewrite Nat.sub_diag. cbn.
  eexists. split; [apply list_lookup_middle; reflexivity|].
  split; [reflexivity|].
  rewrite list_lookup_middle by reflexivity. reflexivity.
Qed.


End registration_properties.

(** [addResource] on a nil prototype: [reflect.TypeOf(nil)] is nil, and the
    call of [Kind] on it panics before anything is registered. *)
Lemma addResource_nil_prototype {W} `{Package} (api : API W) (source : DataSource.t W) :
  addResource api None source
  = (Panics "runtime error: invalid memory address or nil pointer dereference", api).
Proof. reflexivity. Qed.

(** ** The blog, run *)

(** A PUT of a title on post 1: the title changes, the ID and the likes stay. *)
Lemma update_merges_into_current_record_witness :
  ∃ st',
    handleUpdate (Blog.posts_resource Blog.memory (Some Blog.liking))
      (Blog.request "PUT" "/v1/posts/1" [] (Blog.js "{'title':'hi'}")) [("id", "1")] Blog.start
    = (Return (), st')
    ∧ Blog.posts (world st') !! "1" = Some (Blog.post "1" "hi" 3)
    ∧ http.response_status (writer st') = Some 204
    ∧ http.written (writer st') = "".
Proof.
  pose proof (update_merges_into_current_record Blog.jsonify Blog.listOf Blog.convert
                Blog.pluralize Blog.MarshalToJSON Blog.marshalError
                (Blog.posts_resource Blog.memory (Some Blog.liking))
                (Blog.request "PUT" "/v1/posts/1" [] (Blog.js "{'title':'hi'}"))
                [("id", "1")] Blog.start) as Hthm.
  cbv zeta in Hthm.
  edestruct Hthm as (Hkeep & Htake & st' & Hrun & Hworld & _ & Hstatus & Hbody);
    [vm_compute; reflexivity ..|].
  exists st'. split; [exact Hrun|]. split; [|split; [exact Hstatus|exact Hbody]].
  rewrite Hworld. vm_compute. reflexivity.
Defined.


(** Under the read-only controller the three write handlers stop at the hook. *)
Lemma hook_error_aborts_before_mutation_witness :
  (∃ st',
     handleDelete (Blog.posts_resource Blog.memory (Some Blog.readonly))
       (Blog.request "DELETE" "/v1/posts/1" [] "") [("id", "1")] Blog.start
     = (Fail Blog.forbidden, st')
     ∧ trace st' = [HookDelete "1"])
  ∧ (∃ st' obj,
       handleCreate (Blog.posts_resource Blog.memory (Some Blog.readonly))
         (Blog.request "POST" "/v1/posts" [] (Blog.js "{'title':'hi'}")) "/v1/" Blog.start
       = (Fail Blog.forbidden, st')
       ∧ trace st' = [HookCreate obj])
  ∧ (∃ st' req obj,
       handleUpdate (Blog.posts_resource Blog.memory (Some Blog.readonly))
         (Blog.request "PUT" "/v1/posts/1" [] (Blog.js "{'title':'hi'}")) [("id", "1")] Blog.start
       = (Fail Blog.forbidden, st')
       ∧ trace st' = [SourceFindOne "1" req; HookUpdate obj]).
Proof.
  split; [|split].
  - destruct (hook_error_aborts_before_mutation
                (Blog.posts_resource Blog.memory (Some Blog.readonly)) Blog.readonly
                (Blog.request "DELETE" "/v1/posts/1" [] "") [("id", "1")] "/v1/" Blog.start
                eq_refl) as (Hdelete & _ & _).
    edestruct Hdelete as (st' & Hrun & Htrace & _); [vm_compute; reflexivity|].
    exists st'. split; [exact Hrun|exact Htrace].
  - destruct (hook_error_aborts_before_mutation
                (Blog.posts_resource Blog.memory (Some Blog.readonly)) Blog.readonly
                (Blog.request "POST" "/v1/posts" [] (Blog.js "{'title':'hi'}")) [] "/v1/" Blog.start
                eq_refl) as (_ & Hcreate & _).
    edestruct Hcreate as (st' & Hrun & Htrace & _); [vm_compute; reflexivity ..|].
    exists st'. eexists. split; [exact Hrun|exact Htrace].
  - destruct (hook_error_aborts_before_mutation
                (Blog.posts_resource Blog.memory (Some Blog.readonly)) Blog.readonly
                (Blog.request "PUT" "/v1/posts/1" [] (Blog.js "{'title':'hi'}")) [("id", "1")]
                "/v1/" Blog.start eq_refl) as (_ & _ & Hupdate).
    edestruct Hupdate as (st' & Hrun & Htrace & _); [vm_compute; reflexivity ..|].
    exists st'. do 2 eexists. split; [exact Hrun|exact Htrace].
Defined.

(** A POST of a title creates post 3 and answers 201 with its Location. *)
Lemma create_answers_created_witness :
  ∃ st',
    handleCreate (Blog.posts_resource Blog.memory (Some Blog.liking))
      (Blog.request "POST" "/v1/posts" [] (Blog.js "{'title':'hi'}")) "/v1/" Blog.start
    = (Return (), st')
    ∧ http.response_status (writer st') = Some 201
    ∧ http.response_header (writer st') "Location" = Some ["/v1/posts/3"]
    ∧ http.written (writer st') = (Blog.js "{'id':'3','title':'hi','likes':1}").
Proof.
  edestruct (create_answers_created (Blog.posts_resource Blog.memory (Some Blog.liking))
               (Blog.request "POST" "/v1/posts" [] (Blog.js "{'title':'hi'}")) "/v1/" Blog.start)
    as (st' & Hrun & _ & _ & Hstatus & Hlocation & Hbody); [vm_compute; reflexivity ..|].
  exists st'. split; [exact Hrun|]. split; [exact Hstatus|].
  split; [exact Hlocation|exact Hbody].
Defined.

(** A GET of three IDs is one FindMultiple; a GET of one ID is one FindOne. *)
Lemma read_one_or_many_witness :
  (∃ st' req,
     handleRead (Blog.posts_resource Blog.memory None)
       (Blog.request "GET" "/v1/posts/1,2,3" [] "") [("id", "1,2,3")] Blog.start
     = (Return (), st')
     ∧ filter (λ ev, is_source_call ev = true) (trace st')
       = [SourceFindMultiple ["1"; "2"; "3"] req]
     ∧ http.response_status (writer st') = Some 200)
  ∧ (∃ st' req,
       handleRead (Blog.posts_resource Blog.memory None)
         (Blog.request "GET" "/v1/posts/2" [] "") [("id", "2")] Blog.start
       = (Return (), st')
       ∧ filter (λ ev, is_source_call ev = true) (trace st') = [SourceFindOne "2" req]
       ∧ http.response_status (writer st') = Some 200).
Proof.
  split.
  - destruct (read_one_or_many (Blog.posts_resource Blog.memory None)
                (Blog.request "GET" "/v1/posts/1,2,3" [] "") [("id", "1,2,3")] Blog.start)
      as (req & Hreq & _ & Hok).
    edestruct Hok as (st' & Hrun & _ & Htrace & Hstatus & _); [vm_compute; reflexivity ..|].
    exists st', req. split; [exact Hrun|]. split; [|exact Hstatus].
    rewrite Htrace. reflexivity.
  - destruct (read_one_or_many (Blog.posts_resource Blog.memory None)
                (Blog.request "GET" "/v1/posts/2" [] "") [("id", "2")] Blog.start)
      as (req & Hreq & _ & Hok).
    edestruct Hok as (st' & Hrun & _ & Htrace & Hstatus & _); [vm_compute; reflexivity ..|].
    exists st', req. split; [exact Hrun|]. split; [|exact Hstatus].
    rewrite Htrace. reflexivity.
Defined.




(** A list request with a sort of two fields and a page. *)
Lemma query_params_are_split_witness :
  ∃ req,
    buildRequest (Blog.request "GET" "/v1/posts" [("sort", "title,likes"); ("page", "2")] "")
    = Some req
    ∧ QueryParams req !! "sort" = Some ["title"; "likes"]
    ∧ QueryParams req !! "page" = Some ["2"]
    ∧ ∃ st' evs,
        handler List_ (Blog.posts_resource Blog.memory None)
          (Blog.request "GET" "/v1/posts" [("sort", "title,likes"); ("page", "2")] "")
          [] "/v1/" Blog.start = (Return (), st')
        ∧ trace st' = evs
        ∧ Forall (λ ev, ∀ q, event_request ev = Some q → q = req) evs.
Proof.
  destruct (query_params_are_split (W := Blog.World)
              (Blog.request "GET" "/v1/posts" [("sort", "title,likes"); ("page", "2")] ""))
    as (req & Hreq & Hsplit & _ & Hone & Hpassed).
  exists req. split; [exact Hreq|].
  split; [rewrite Hsplit; reflexivity|].
  split; [apply Hone; reflexivity|].
  edestruct (Hpassed List_ (Blog.posts_resource Blog.memory None) [] "/v1/" Blog.start)
    as (evs & Htrace & Hall); [vm_compute; reflexivity|].
  do 2 eexists. split; [vm_compute; reflexivity|]. split; [reflexivity|].
  simpl in Htrace. rewrite Htrace. exact Hall.
Defined.

(** The body null is not a JSON object, and [unmarshalJSONRequest] returns
    the empty map for it without an error. *)
Lemma null_body_is_accepted :
  json.parse "null" = Some JNull
  ∧ unmarshalJSONRequest (W := Blog.World) (Blog.request "POST" "/v1/posts" [] "null")
      Blog.start
    = (Return ∅, Blog.start)
  ∧ ¬ (∀ body : string,
         (∀ members, json.parse body ≠ Some (JObject members)) →
         ∃ e, unmarshalJSONRequest (W := Blog.World)
                (Blog.request "POST" "/v1/posts" [] body) Blog.start
              = (Fail e, Blog.start)).
Proof.
  split; [vm_compute; reflexivity|]. split; [vm_compute; reflexivity|].
  intros Hclaim. destruct (Hclaim "null") as [e He].
  - intros members. vm_compute. discriminate.
  - vm_compute in He. discriminate.
Qed.

(** A POST of an array and a PUT of a truncated object fail without a
    mutation. *)
Lemma refused_body_stops_before_mutation_witness :
  (∃ e,
     handleCreate (Blog.posts_resource Blog.memory None)
       (Blog.request "POST" "/v1/posts" [] (Blog.js "[{'title':'hi'}]")) "/v1/" Blog.start
     = (Fail e, Blog.start))
  ∧ (∃ e st',
       handleUpdate (Blog.posts_resource Blog.memory None)
         (Blog.request "PUT" "/v1/posts/1" [] (Blog.js "{'title':")) [("id", "1")] Blog.start
       = (Fail e, st')
       ∧ Forall (λ ev, is_mutation ev = false) (trace st')).
Proof.
  split.
  - destruct (refused_body_stops_before_mutation (Blog.posts_resource Blog.memory None)
                (Blog.request "POST" "/v1/posts" [] (Blog.js "[{'title':'hi'}]")) [] "/v1/"
                Blog.start (Blog.js "[{'title':'hi'}]") eq_refl)
      as (e & req & _ & _ & Hcreate & _); [vm_compute; reflexivity|].
    exists e. exact Hcreate.
  - destruct (refused_body_stops_before_mutation (Blog.posts_resource Blog.memory None)
                (Blog.request "PUT" "/v1/posts/1" [] (Blog.js "{'title':")) [("id", "1")] "/v1/"
                Blog.start (Blog.js "{'title':") eq_refl)
      as (e & req & _ & _ & _ & Hupdate); [vm_compute; reflexivity|].
    edestruct Hupdate as ([e' He'] & _ & Htrace & _); [vm_compute; reflexivity|].
    simplify_eq. do 2 eexists. split; [vm_compute; reflexivity|].
    vm_compute. repeat constructor.
Defined.



(** ** More of the engine *)

(** *** [strings.Trim] and [NewAPI] *)

Lemma TrimLeft_cut (s : string) (c : ascii) :
  strings.TrimLeft (String c s) c = strings.TrimLeft s c.
Proof. simpl. rewrite Ascii.eqb_refl. reflexivity. Qed.

Lemma TrimLeft_head (s : string) (c a : ascii) (t : string) :
  strings.TrimLeft s c = String a t → a ≠ c.
Proof.
  induction s as [|b s IH]; simpl; [discriminate|].
  destruct (Ascii.eqb_spec b c) as [->|Hne]; [exact IH|].
  intros Heq. injection Heq as <- <-. exact Hne.
Qed.

Lemma TrimLeft_fixed (s : string) (c : ascii) :
  (∀ t, s ≠ String c t) → strings.TrimLeft s c = s.
Proof.
  destruct s as [|b s]; simpl; [reflexivity|]. intros Hhead.
  destruct (Ascii.eqb_spec b c) as [->|Hne]; [|reflexivity].
  exfalso. exact (Hhead s eq_refl).
Qed.

Lemma append_cons (a : ascii) (s t : string) : String a s +:+ t = String a (s +:+ t).
Proof. reflexivity. Qed.

Lemma append_assoc (s t u : string) : (s +:+ t) +:+ u = s +:+ (t +:+ u).
Proof.
  induction s as [|a s IH]; [reflexivity|]. rewrite !append_cons, IH. reflexivity.
Qed.

Lemma append_snoc_inj (x y : string) (c : ascii) :
  x +:+ String c "" = y +:+ String c "" → x = y.
Proof.
  revert y. induction x as [|a x IH]; intros [|b y] Heq; rewrite ?append_cons in Heq.
  - reflexivity.
  - destruct y; discriminate.
  - destruct x; discriminate.
  - injection Heq as -> Heq. f_equal. exact (IH y Heq).
Qed.

Lemma TrimRight_snoc (s : string) (c : ascii) :
  strings.TrimRight (s +:+ String c "") c = strings.TrimRight s c.
Proof.
  induction s as [|a s IH].
  - simpl. rewrite Ascii.eqb_refl. reflexivity.
  - rewrite append_cons. simpl. rewrite IH. reflexivity.
Qed.

(** [TrimRight] keeps the first byte of what it leaves. *)
Lemma TrimRight_head (s : string) (c a : ascii) (t : string) :
  strings.TrimRight s c = String a t → ∃ t', s = String a t'.
Proof.
  destruct s as [|b s]; simpl; [discriminate|].
  destruct (strings.TrimRight s c).
  - destruct (Ascii.eqb b c); [discriminate|]. intros Heq. injection Heq as <- <-. eauto.
  - intros Heq. injection Heq as <- <-. eauto.
Qed.

Lemma TrimRight_last (s : string) (c : ascii) (u : string) :
  strings.TrimRight s c ≠ u +:+ String c "".
Proof.
  revert u. induction s as [|a s IH]; intros u; simpl.
  - destruct u; discriminate.
  - destruct (strings.TrimRight s c) as [|b t] eqn:Hs.
    + destruct (Ascii.eqb_spec a c) as [->|Hne].
      * destruct u; discriminate.
      * destruct u as [|a' [|? ?]]; try discriminate.
        intros Heq. injection Heq as ->. contradiction.
    + destruct u as [|a' u']; [discriminate|]. rewrite append_cons.
      intros Heq. injection Heq as <- Heq. exact (IH u' Heq).
Qed.

Lemma TrimRight_fixed (s : string) (c : ascii) :
  (∀ u, s ≠ u +:+ String c "") → strings.TrimRight s c = s.
Proof.
  induction s as [|a s IH]; intros Hlast; simpl; [reflexivity|].
  destruct s as [|b s'].
  - simpl. destruct (Ascii.eqb_spec a c) as [->|Hne]; [|reflexivity].
    exfalso. exact (Hlast "" eq_refl).
  - rewrite IH.
    + reflexivity.
    + intros u Hu. apply (Hlast (String a u)). rewrite append_cons, Hu. reflexivity.
Qed.

Lemma Trim_head (s : string) (c : ascii) (t : string) :
  strings.Trim s c ≠ String c t.
Proof.
  unfold strings.Trim. intros Heq.
  destruct (TrimRight_head _ _ _ _ Heq) as [t' Ht'].
  exact (TrimLeft_head _ _ _ _ Ht' eq_refl).
Qed.

Lemma Trim_last (s : string) (c : ascii) (u : string) :
  strings.Trim s c ≠ u +:+ String c "".
Proof. unfold strings.Trim. apply TrimRight_last. Qed.

Lemma Trim_fixed (s : string) (c : ascii) :
  (∀ t, s ≠ String c t) → (∀ u, s ≠ u +:+ String c "") → strings.Trim s c = s.
Proof.
  intros Hhead Hlast. unfold strings.Trim.
  rewrite TrimLeft_fixed by exact Hhead. apply TrimRight_fixed. exact Hlast.
Qed.

Lemma Trim_idempotent (s : string) (c : ascii) :
  strings.Trim (strings.Trim s c) c = strings.Trim s c.
Proof. apply Trim_fixed; [apply Trim_head|apply Trim_last]. Qed.

Lemma Trim_cut_left (s : string) (c : ascii) :
  strings.Trim (String c s) c = strings.Trim s c.
Proof. unfold strings.Trim. rewrite TrimLeft_cut. reflexivity. Qed.

Lemma Trim_cut_right (s : string) (c : ascii) :
  strings.Trim (s +:+ String c "") c = strings.Trim s c.
Proof.
  unfold strings.Trim. induction s as [|a s IH].
  - simpl. rewrite Ascii.eqb_refl. reflexivity.
  - rewrite append_cons. simpl strings.TrimLeft.
    destruct (Ascii.eqb a c); [exact IH|].
    rewrite <- append_cons. apply TrimRight_snoc.
Qed.

Section NewAPI_properties.

Context {W : Type}.

(** The prefix of a new API in terms of the trimmed argument. *)
Lemma NewAPI_prefix_eq (p : string) :
  prefix (NewAPI (W := W) p)
  = match strings.Trim p "/" with
    | EmptyString => "/"
    | t => "/" +:+ t +:+ "/"
    end.
Proof.
  unfold NewAPI. cbn [prefix].
  destruct (strings.Trim p "/"); reflexivity.
Qed.

(** X1. The prefix of a new API begins and ends with a slash, is the single
    slash exactly when the argument has nothing but slashes, and otherwise
    has no second slash at either end; slashes around the argument do not
    matter, and normalising a normalised prefix changes nothing. *)
Theorem NewAPI_normalises_prefix (p : string) :
  let pre := prefix (NewAPI (W := W) p) in
  (∃ rest, pre = String "/" rest)
  ∧ (∃ front, pre = front +:+ "/")
  ∧ (pre = "/" ↔ strings.Trim p "/" = "")
  ∧ (∀ rest, pre ≠ String "/" (String "/" rest))
  ∧ (∀ front, pre ≠ front +:+ "//")
  ∧ prefix (NewAPI (W := W) (String "/" p)) = pre
  ∧ prefix (NewAPI (W := W) (p +:+ "/")) = pre
  ∧ prefix (NewAPI (W := W) pre) = pre.
Proof.
  intros pre. subst pre. rewrite !NewAPI_prefix_eq.
  rewrite Trim_cut_left, Trim_cut_right.
  pose proof (Trim_head p "/") as Hhead. pose proof (Trim_last p "/") as Hlast.
  pose proof (Trim_idempotent p "/") as Hidem.
  destruct (strings.Trim p "/") as [|a t] eqn:Htrim.
  - split; [eauto|]. split; [exists ""; reflexivity|]. split; [done|].
    split; [intros rest Heq; discriminate|].
    split; [intros [|b [|b' front]] Heq; discriminate|].
    split; [reflexivity|]. split; reflexivity.
  - assert (Hpre : "/" +:+ String a t +:+ "/" = String "/" (String a (t +:+ "/")))
      by reflexivity.
    rewrite Hpre.
    split; [eauto|]. split; [exists (String "/" (String a t)); reflexivity|].
    split; [split; intros Heq; discriminate|].
    split.
    { intros rest Heq. injection Heq as -> _. exact (Hhead t eq_refl). }
    split.
    { intros front Heq.
      destruct front as [|b front].
      { change ("" +:+ "//") with "//" in Heq. injection Heq as -> _.
        exact (Hhead t eq_refl). }
      rewrite append_cons in Heq. injection Heq as <- Heq.
      apply (Hlast front).
      change "//" with ("/" +:+ "/") in Heq. rewrite <- append_assoc in Heq.
      rewrite <- append_cons in Heq.
      exact (append_snoc_inj _ _ _ Heq). }
    split; [reflexivity|]. split; [reflexivity|].
    rewrite Trim_cut_left. rewrite <- append_cons.
    rewrite Trim_cut_right, Hidem. exact Hpre.
Qed.

End NewAPI_properties.

(** *** Registration: what it adds and what it keeps *)

(** The calls of one registration that went through before it returned or
    panicked are a prefix of its calls, and their routes are appended. *)
Lemma Handle_all_appends (calls : list (string * string * Handler))
    (routes routes' : list (httprouter.Route Handler)) (r : Setup unit) :
  Handle_all calls routes = (r, routes') →
  ∃ done, done `prefix_of` calls ∧ routes' = routes ++ map route_of done
    ∧ (∀ u, r = Done u → done = calls).
Proof.
  revert routes. induction calls as [|[[m p] h] calls IH]; intros routes Hall.
  - injection Hall as <- <-. exists []. rewrite app_nil_r. done.
  - cbn [Handle_all] in Hall. unfold httprouter.Handle in Hall.
    destruct p as [|c p']; [|destruct (Ascii.eqb_spec c "/") as [->|Hc]].
    + injection Hall as <- <-. exists []. rewrite app_nil_r.
      split; [apply prefix_nil|]. split; [reflexivity|discriminate].
    + destruct (httprouter.registered m (String "/" p') routes).
      * injection Hall as <- <-. exists []. rewrite app_nil_r.
        split; [apply prefix_nil|]. split; [reflexivity|discriminate].
      * destruct (IH _ Hall) as (done & Hpre & -> & Hdone).
        exists ((m, String "/" p', h) :: done).
        split; [apply prefix_cons; exact Hpre|].
        split; [rewrite <- app_assoc; reflexivity|].
        intros u Hu. f_equal. exact (Hdone u Hu).
    + assert (Hall' : (Panics (A := unit) "httprouter: the route cannot be registered", routes)
                      = (r, routes')).
      { rewrite <- Hall. clear -Hc.
        destruct c as [[] [] [] [] [] [] [] []]; try reflexivity. contradiction. }
      injection Hall' as <- <-. exists []. rewrite app_nil_r.
      split; [apply prefix_nil|]. split; [reflexivity|discriminate].
Qed.

Lemma registered_nil {H} (m p : string) : httprouter.registered (H := H) m p [] = false.
Proof. reflexivity. Qed.

Section registration_composition.

Context {W : Type} `{Package}.


(** X3. A registration only adds: whatever [addResource] returns, and also
    when it panics half-way, the routes registered before are still there in
    their order, followed by routes of the new resource only; the prefix is
    unchanged; and the resources registered before are unchanged. *)
Theorem registration_only_adds (api api' : API W) (prototype : interface)
    (source : DataSource.t W) (r : Setup nat) :
  addResource api prototype source = (r, api') →
  prefix api' = prefix api
  ∧ store api `prefix_of` store api'
  ∧ ∃ added,
      router api' = router api ++ added
      ∧ Forall (λ rt, httprouter.handle rt = OptionsCollection
                      ∨ httprouter.handle rt = OptionsItem
                      ∨ ∃ verb, httprouter.handle rt = Serve verb (length (store api))) added
      ∧ (∀ addr, r = Done addr → addr = length (store api) ∧ length added = 7%nat).
Proof.
  unfold addResource. intros Hadd.
  destruct prototype as [v|]; cbn -[Handle_all routes_of] in Hadd.
  2: { injection Hadd as <- <-. split; [reflexivity|]. split; [reflexivity|].
       exists []. rewrite app_nil_r. split; [reflexivity|]. split; [constructor|intros addr Hr; discriminate]. }
  case_decide.
  { injection Hadd as <- <-. split; [reflexivity|]. split; [reflexivity|].
    exists []. rewrite app_nil_r. split; [reflexivity|]. split; [constructor|intros addr Hr; discriminate]. }
  destruct (Handle_all _ _) as [r0 routes] eqn:Hall.
  destruct (Handle_all_appends _ _ _ _ Hall) as (done & Hpre & -> & Hdone).
  assert (Hhandles :
    Forall (λ rt, httprouter.handle rt = OptionsCollection
                  ∨ httprouter.handle rt = OptionsItem
                  ∨ ∃ verb, httprouter.handle rt = Serve verb (length (store api)))
      (map route_of done)).
  { destruct Hpre as [rest Hcalls].
    assert (Hall7 : Forall (λ c : string * string * Handler,
                      c.2 = OptionsCollection ∨ c.2 = OptionsItem
                      ∨ ∃ verb, c.2 = Serve verb (length (store api)))
                      (done ++ rest)).
    { rewrite <- Hcalls. unfold routes_of. cbv zeta.
      repeat (apply Forall_cons; split; [cbn; eauto|]). constructor. }
    apply Forall_app in Hall7 as [Hdone7 _].
    apply Forall_map. exact Hdone7. }
  destruct r0 as [[]|reason]; injection Hadd as <- <-; cbn.
  - split; [reflexivity|]. split; [apply prefix_app_r; reflexivity|].
    eexists. split; [reflexivity|]. split; [exact Hhandles|].
    intros addr Haddr. injection Haddr as <-. split; [reflexivity|].
    rewrite (Hdone () eq_refl). reflexivity.
  - split; [reflexivity|]. split; [apply prefix_app_r; reflexivity|].
    eexists. split; [reflexivity|]. split; [exact Hhandles|intros addr Hr; discriminate].
Qed.

End registration_composition.

(** *** Paths of different resources *)





Lemma item_path_neq (p : string) : p ≠ p +:+ "/:id".
Proof. apply String.eqb_neq. apply item_path_differs. Qed.


Section registration_names.

Context {W : Type} `{Package}.



End registration_names.

Section more_handler_properties.

Context {W : Type} `{Package}.

(** *** List *)

(** X8. For a GET of the collection: the first event of every run is
    DataSource.FindAll with the Request Context, and no other call into the
    data source follows; when it succeeds the FindAll hook (if there is a
    controller) runs on its result and may replace it; the response is 200,
    of type application/json, with the encoding of the object the hook left;
    and when that object cannot be encoded the handler returns the error of
    the encoder and nothing has been written. *)
Theorem list_answers_collection (res : resource W) (r : http.Request) (st : State W) :
  ∃ req, buildRequest r = Some req
    ∧ (∀ o st', handleIndex res r st = (o, st') →
         ∃ evs, trace st' = trace st ++ SourceFindAll req :: evs
           ∧ Forall (λ ev, is_source_call ev = false) evs)
    ∧ (∀ objs w1 objs' w2,
         DataSource.FindAll (source res) req (world st) = (Ok objs, w1) →
         run_hook (controller res) (λ c, Controller.FindAll c r) objs w1 = (Ok objs', w2) →
         (∀ encoded,
            MarshalToJSON objs' = Ok encoded →
            http.sent (writer st) = None →
            ∃ st', handleIndex res r st = (Return (), st')
              ∧ world st' = w2
              ∧ trace st' = trace st
                  ++ SourceFindAll req :: hook_events (controller res) (HookFindAll objs)
                  ++ [HeaderSet "Content-Type" "application/json";
                      WriteHeader 200;
                      Write encoded]
              ∧ http.response_status (writer st') = Some 200
              ∧ http.response_header (writer st') "Content-Type"
                = Some ["application/json"]
              ∧ http.written (writer st') = http.written (writer st) +:+ encoded)
         ∧ (∀ e,
              MarshalToJSON objs' = Err e →
              ∃ st', handleIndex res r st = (Fail e, st')
                ∧ world st' = w2
                ∧ writer st' = writer st)).
Proof.
  destruct (buildRequest_spec r) as (req & Hreq & _).
  exists req. split; [exact Hreq|]. split.
  - intros o st' Hrun. unfold handleIndex in Hrun. unfold_M_in Hrun.
    rewrite Hreq in Hrun. cbn in Hrun. paths;
      (eexists; split; [rewrite <- ?app_assoc; cbn; reflexivity|repeat constructor]).
  - intros objs w1 objs' w2 Hfind Hhook. unfold run_hook, hook_events in *. split.
    + intros encoded Henc Hsent. unfold handleIndex. unfold_M. rewrite Hreq. cbn.
      rewrite Hfind. cbn.
      destruct (controller res) as [c|]; cbn;
        [rewrite Hhook|injection Hhook as <- <-]; cbn; rewrite Henc; cbn;
        (eexists; split; [reflexivity|]); cbn;
        unfold http.response_status, http.response_header, http.Write, http.WriteHeader;
        cbn; rewrite Hsent; cbn; rewrite lookup_insert_eq;
        rewrite <- ?app_assoc; done.
    + intros e Henc. unfold handleIndex. unfold_M. rewrite Hreq. cbn.
      rewrite Hfind. cbn.
      destruct (controller res) as [c|]; cbn;
        [rewrite Hhook|injection Hhook as <- <-]; cbn; rewrite Henc; cbn;
        (eexists; split; [reflexivity|]); done.
Qed.

(** *** Read hooks *)

(** X9. The read hooks run after the fetch and cannot undo it: when the
    FindAll or FindOne hook of a controller returns an error, the handler
    returns that error after the data source has been read, and nothing is
    written to the response; and when the fetch itself fails the hook is not
    run. *)
Theorem read_hooks_run_after_fetch (res : resource W) (c : Controller.t W)
    (r : http.Request) (id : string) (st : State W) :
  controller res = Some c →
  strings.Contains id "," = false →
  ∃ req, buildRequest r = Some req
    ∧ (∀ objs w1 e w2,
         DataSource.FindAll (source res) req (world st) = (Ok objs, w1) →
         Controller.FindAll c r objs w1 = (Err e, w2) →
         handleIndex res r st
         = (Fail e, {| world := w2; writer := writer st;
                       trace := trace st ++ [SourceFindAll req; HookFindAll objs] |}))
    ∧ (∀ e w1,
         DataSource.FindAll (source res) req (world st) = (Err e, w1) →
         handleIndex res r st
         = (Fail e, {| world := w1; writer := writer st;
                       trace := trace st ++ [SourceFindAll req] |}))
    ∧ (∀ obj w1 e w2,
         DataSource.FindOne (source res) id req (world st) = (Ok obj, w1) →
         Controller.FindOne c r obj w1 = (Err e, w2) →
         handleRead res r [("id", id)] st
         = (Fail e, {| world := w2; writer := writer st;
                       trace := trace st ++ [SourceFindOne id req; HookFindOne obj] |}))
    ∧ (∀ e w1,
         DataSource.FindOne (source res) id req (world st) = (Err e, w1) →
         handleRead res r [("id", id)] st
         = (Fail e, {| world := w1; writer := writer st;
                       trace := trace st ++ [SourceFindOne id req] |})).
Proof.
  intros Hc Hid. destruct (buildRequest_spec r) as (req & Hreq & _).
  exists req. split; [exact Hreq|].
  assert (Hsplit : strings.Split (httprouter.ByName [("id", id)] "id") "," = [id]).
  { cbn. apply Split_without_sep. exact Hid. }
  split; [|split; [|split]].
  - intros objs w1 e w2 Hfind Hhook. unfold handleIndex. unfold_M.
    rewrite Hreq, Hc. cbn. rewrite Hfind. cbn. rewrite Hhook. cbn.
    rewrite <- app_assoc. reflexivity.
  - intros e w1 Hfind. unfold handleIndex. unfold_M.
    rewrite Hreq. cbn. rewrite Hfind. cbn. reflexivity.
  - intros obj w1 e w2 Hfind Hhook. unfold handleRead. rewrite Hsplit. unfold_M.
    rewrite Hreq, Hc. cbn. rewrite decide_True by reflexivity. cbn.
    rewrite Hfind. cbn. rewrite Hhook. cbn.
    rewrite <- app_assoc. reflexivity.
  - intros e w1 Hfind. unfold handleRead. rewrite Hsplit. unfold_M.
    rewrite Hreq. cbn. rewrite decide_True by reflexivity. cbn.
    rewrite Hfind. cbn. reflexivity.
Qed.

(** *** Delete *)

(** X11. For a DELETE: the only call into the data source in any run is
    DataSource.Delete on the id of the path; when the hook (if any) and the
    deletion succeed the answer is 204, with no body and no header set; and
    when the deletion fails the handler returns its error and nothing has
    been written. *)
Theorem delete_answers_no_content (res : resource W) (r : http.Request)
    (ps : httprouter.Params) (st : State W) :
  let id := httprouter.ByName ps "id" in
  (∀ o st', handleDelete res r ps st = (o, st') →
     ∃ evs, trace st' = trace st ++ evs
       ∧ Forall (λ ev, is_source_call ev = true → ev = SourceDelete id) evs)
  ∧ (∀ w1,
       match controller res with
       | Some c => Controller.Delete c r id (world st)
       | None => (Ok (), world st)
       end = (Ok (), w1) →
       (∀ w2,
          DataSource.Delete (source res) id w1 = (Ok (), w2) →
          http.sent (writer st) = None →
          ∃ st', handleDelete res r ps st = (Return (), st')
            ∧ world st' = w2
            ∧ trace st' = trace st ++ hook_events (controller res) (HookDelete id)
                          ++ [SourceDelete id; WriteHeader 204]
            ∧ http.response_status (writer st') = Some 204
            ∧ http.written (writer st') = http.written (writer st)
            ∧ http.Header_ (writer st') = http.Header_ (writer st))
       ∧ (∀ e w2,
            DataSource.Delete (source res) id w1 = (Err e, w2) →
            handleDelete res r ps st
            = (Fail e, {| world := w2; writer := writer st;
                          trace := trace st ++ hook_events (controller res) (HookDelete id)
                                   ++ [SourceDelete id] |}))).
Proof.
  intros id. split.
  - intros o st' Hrun. unfold handleDelete in Hrun. fold id in Hrun.
    unfold_M_in Hrun. cbn in Hrun. paths; close_trace;
      repeat constructor; cbn; intros; simplify_eq; reflexivity.
  - intros w1 Hhook. unfold hook_events. split.
    + intros w2 Hdel Hsent. unfold handleDelete. fold id. unfold_M.
      destruct (controller res) as [c|]; cbn;
        [rewrite Hhook|injection Hhook as <-]; cbn; rewrite Hdel; cbn;
        (eexists; split; [reflexivity|]); cbn;
        unfold http.response_status, http.WriteHeader; rewrite Hsent; cbn;
        rewrite <- ?app_assoc; done.
    + intros e w2 Hdel. unfold handleDelete. fold id. unfold_M.
      destruct (controller res) as [c|]; cbn;
        [rewrite Hhook|injection Hhook as <-]; cbn; rewrite Hdel; cbn;
        rewrite <- ?app_assoc; reflexivity.
Qed.

(** *** A create that cannot be read back *)

(** X12. A create is not rolled back: when DataSource.Create has returned
    the new ID and the FindOne that follows fails, the handler returns the
    error of FindOne; the record stays created (no call undoes it), and the
    Location header of the new record stays set on the response.  When
    DataSource.Create itself fails, the handler returns its error, Location is
    not set and nothing is written. *)
Theorem create_is_not_rolled_back (res : resource W) (r : http.Request) (prefix : string)
    (st : State W) (body : string) (ctx : gmap string JSON) (d : Data)
    (newObj : interface) (w1 : W) (req : Request) :
  http.Body r = Ok body →
  Unmarshal_map body ∅ = Ok ctx →
  unmarshalInto ctx (resourceType res) [] = Ok [d] →
  run_hook (controller res) (λ c, Controller.Create c r)
    (Some {| TypeOf := resourceType res; data := d |}) (world st) = (Ok newObj, w1) →
  buildRequest r = Some req →
  let hooked := hook_events (controller res)
                  (HookCreate (Some {| TypeOf := resourceType res; data := d |})) in
  (∀ id w2 e w3,
     DataSource.Create (source res) newObj w1 = (Ok id, w2) →
     DataSource.FindOne (source res) id req w2 = (Err e, w3) →
     handleCreate res r prefix st
     = (Fail e,
        {| world := w3;
           writer := http.Set_ "Location" (prefix +:+ name res +:+ "/" +:+ id) (writer st);
           trace := trace st ++ hooked
                    ++ [SourceCreate newObj;
                        HeaderSet "Location" (prefix +:+ name res +:+ "/" +:+ id);
                        SourceFindOne id req] |}))
  ∧ (∀ e w2,
       DataSource.Create (source res) newObj w1 = (Err e, w2) →
       handleCreate res r prefix st
       = (Fail e, {| world := w2; writer := writer st;
                     trace := trace st ++ hooked ++ [SourceCreate newObj] |})).
Proof.
  intros Hbody Hctx Hdec Hhook Hreq hooked. subst hooked.
  unfold run_hook, hook_events in *. split.
  - intros id w2 e w3 Hcreate Hfind. unfold handleCreate. unfold_M. cbn.
    rewrite Hbody, Hctx, Hdec. cbn.
    destruct (controller res) as [c|]; cbn;
      [rewrite Hhook|injection Hhook as <- <-]; cbn;
      rewrite Hcreate; cbn; rewrite Hreq; cbn; rewrite Hfind; cbn;
      rewrite <- ?app_assoc; reflexivity.
  - intros e w2 Hcreate. unfold handleCreate. unfold_M. cbn.
    rewrite Hbody, Hctx, Hdec. cbn.
    destruct (controller res) as [c|]; cbn;
      [rewrite Hhook|injection Hhook as <- <-]; cbn;
      rewrite Hcreate; cbn; rewrite <- ?app_assoc; reflexivity.
Qed.

End more_handler_properties.

Section route_properties.

Context {W : Type} `{Package}.




(** X13. What a handler answers when it succeeds, on every verb, on a
    response that has not been sent: 200 for a list and a read, 201 for a
    create, 204 for an update and a delete; the 204 answers have no body and
    set no header, the others are of type application/json and add their body
    to the response. *)
Theorem success_status_by_verb (v : Verb) (res : resource W) (r : http.Request)
    (ps : httprouter.Params) (prefix : string) (st st' : State W) :
  http.sent (writer st) = None →
  handler v res r ps prefix st = (Return (), st') →
  http.response_status (writer st') = Some (success_status v)
  ∧ match v with
    | Update | Delete =>
        http.written (writer st') = http.written (writer st)
        ∧ http.Header_ (writer st') = http.Header_ (writer st)
    | _ =>
        http.response_header (writer st') "Content-Type" = Some ["application/json"]
        ∧ ∃ encoded, http.written (writer st') = http.written (writer st) +:+ encoded
    end.
Proof.
  intros Hsent Hrun. destruct (buildRequest_spec r) as (req & Hreq & _).
  destruct v; unfold handler in Hrun;
    [unfold handleIndex in Hrun|unfold handleRead in Hrun|unfold handleCreate in Hrun
    |unfold handleUpdate in Hrun|unfold handleDelete in Hrun];
    unfold_M_in Hrun; rewrite ?Hreq in Hrun; cbn in Hrun;
    paths;
    unfold http.response_status, http.response_header, http.Write, http.WriteHeader;
    cbn; rewrite Hsent; cbn; rewrite ?lookup_insert_eq; eauto.
Qed.

(** X15. The handlers of a list, a read, a create and a delete never panic,
    whatever the collaborators return.  The update handler panics in one case
    only: FindOne succeeded and the body parsed, and what FindOne returned is
    nil or is not a value of the resource type; nothing has been written and
    DataSource.Update has not been called then.  And in that case it does
    panic. *)
Theorem only_update_can_panic (v : Verb) (res : resource W) (r : http.Request)
    (ps : httprouter.Params) (prefix : string) (st : State W) :
  let id := httprouter.ByName ps "id" in
  (∀ reason st',
     handler v res r ps prefix st = (Panic reason, st') →
     v = Update
     ∧ ∃ req obj w1 body ctx,
         buildRequest r = Some req
         ∧ DataSource.FindOne (source res) id req (world st) = (Ok obj, w1)
         ∧ http.Body r = Ok body
         ∧ Unmarshal_map body ∅ = Ok ctx
         ∧ TypeOf <$> obj ≠ Some (resourceType res)
         ∧ st' = {| world := w1; writer := writer st;
                    trace := trace st ++ [SourceFindOne id req] |})
  ∧ (∀ req obj w1 body ctx,
       buildRequest r = Some req →
       DataSource.FindOne (source res) id req (world st) = (Ok obj, w1) →
       http.Body r = Ok body →
       Unmarshal_map body ∅ = Ok ctx →
       TypeOf <$> obj ≠ Some (resourceType res) →
       ∃ reason,
         handleUpdate res r ps st
         = (Panic reason, {| world := w1; writer := writer st;
                             trace := trace st ++ [SourceFindOne id req] |})).
Proof.
  intros id. destruct (buildRequest_spec r) as (req & Hreq & _). split.
  - intros reason st' Hrun.
    destruct v; unfold handler in Hrun;
      [unfold handleIndex in Hrun|unfold handleRead in Hrun|unfold handleCreate in Hrun
      |unfold handleUpdate in Hrun|unfold handleDelete in Hrun];
      try fold id in Hrun;
      unfold_M_in Hrun; rewrite ?Hreq in Hrun; cbn in Hrun;
      paths;
      try match goal with
          | Hn : ?l !! 0%nat = None |- _ =>
              exfalso; destruct l as [|? [|? ?]]; cbn in *; (discriminate || lia)
          end.
    all: split; [reflexivity|].
    all: do 5 eexists; repeat (split; [eassumption || reflexivity|]).
    all: split; [|reflexivity]; cbn; congruence.
  - intros req' obj w1 body ctx Hreq' Hfind Hbody Hctx Hty.
    unfold handleUpdate. fold id. unfold_M. rewrite Hreq'. cbn.
    rewrite Hfind. cbn. rewrite Hbody, Hctx. cbn.
    destruct obj as [x|]; cbn.
    + rewrite decide_False by (intros Heq; apply Hty; cbn; congruence).
      cbn. eauto.
    + eauto.
Qed.

End route_properties.

(** *** More on [strings.Split] *)

Lemma Split_with_sep (s : string) (c : ascii) :
  strings.Contains s c = true → ∃ a b l, strings.Split s c = a :: b :: l.
Proof.
  induction s as [|d s IH]; simpl; [discriminate|].
  destruct (Ascii.eqb d c); simpl.
  - intros _. destruct (strings.Split s c) as [|b l] eqn:Hs.
    + exfalso. exact (Split_nonempty s c Hs).
    + eauto.
  - intros Hc. destruct (IH Hc) as (a & b & l & ->). eauto.
Qed.

(** Joining the pieces with the separator gives the string back. *)
Lemma Split_concat (s : string) (c : ascii) :
  String.concat (String c "") (strings.Split s c) = s.
Proof.
  induction s as [|d s IH]; [reflexivity|]. simpl strings.Split.
  destruct (Ascii.eqb_spec d c) as [->|Hne].
  - destruct (strings.Split s c) as [|b l] eqn:Hs.
    + exfalso. exact (Split_nonempty s c Hs).
    + change (String.concat (String c "") ("" :: b :: l))
        with (String c (String.concat (String c "") (b :: l))).
      rewrite IH. reflexivity.
  - destruct (strings.Split s c) as [|w [|b l]] eqn:Hs.
    + exfalso. exact (Split_nonempty s c Hs).
    + simpl in *. rewrite IH. reflexivity.
    + change (String.concat (String c "") (String d w :: b :: l))
        with (String d (String.concat (String c "") (w :: b :: l))).
      rewrite IH. reflexivity.
Qed.

(** No piece holds the separator. *)
Lemma Split_pieces (s : string) (c : ascii) :
  Forall (λ piece, strings.Contains piece c = false) (strings.Split s c).
Proof.
  induction s as [|d s IH]; simpl; [repeat constructor|].
  destruct (Ascii.eqb_spec d c) as [->|Hne].
  - constructor; [reflexivity|exact IH].
  - destruct (strings.Split s c) as [|w ws]; [repeat constructor|].
    + simpl. destruct (Ascii.eqb_spec d c); [contradiction|reflexivity].
    + inversion IH as [|? ? Hw Hws]; subst. constructor; [|exact Hws].
      simpl. destruct (Ascii.eqb_spec d c); [contradiction|exact Hw].
Qed.



Section request_properties.

Context {W : Type} `{Package}.

(** X16. The Request Context depends on nothing but the first value of every
    key of the query string: two requests whose query strings give every key
    the same first value (whatever their later values of a repeated key, the
    order of their keys, their method, path and body) have the same Request
    Context. *)
Theorem buildRequest_first_values (r r' : http.Request) :
  (∀ key, assoc key (http.RawQuery r) = assoc key (http.RawQuery r')) →
  buildRequest r = buildRequest r'.
Proof.
  intros Hsame.
  destruct (buildRequest_spec r) as ([params] & -> & Hparams).
  destruct (buildRequest_spec r') as ([params'] & -> & Hparams').
  do 2 f_equal. apply map_eq. intros key.
  cbn in Hparams, Hparams'. rewrite Hparams, Hparams', Hsame. reflexivity.
Qed.

(** X10. The id segment of a GET decides the path of the read: without a
    comma the handler calls FindOne on the whole segment (also on the empty
    segment); with a comma it calls FindMultiple on at least two IDs.  In both
    cases no ID holds a comma, and the IDs joined by commas are the
    segment. *)
Theorem read_path_by_comma (res : resource W) (r : http.Request) (ps : httprouter.Params)
    (st : State W) :
  let segment := httprouter.ByName ps "id" in
  let ids := strings.Split segment "," in
  String.concat "," ids = segment
  ∧ Forall (λ id, strings.Contains id "," = false) ids
  ∧ ∃ req, buildRequest r = Some req
      ∧ ∀ o st', handleRead res r ps st = (o, st') →
          if strings.Contains segment ","
          then (2 <= length ids)%nat
               ∧ ∃ evs, trace st' = trace st ++ SourceFindMultiple ids req :: evs
          else ∃ evs, trace st' = trace st ++ SourceFindOne segment req :: evs.
Proof.
  intros segment ids. split; [apply Split_concat|]. split; [apply Split_pieces|].
  destruct (buildRequest_spec r) as (req & Hreq & _).
  exists req. split; [exact Hreq|]. intros o st' Hrun.
  unfold handleRead in Hrun. fold segment ids in Hrun.
  unfold_M_in Hrun. rewrite Hreq in Hrun.
  destruct (strings.Contains segment ",") eqn:Hc.
  - destruct (Split_with_sep _ _ Hc) as (a & b & l & Hids). fold ids in Hids.
    rewrite Hids in *. split; [cbn; lia|].
    case_decide; [cbn in *; lia|]. cbn in Hrun. paths; new_events.
  - pose proof (Split_without_sep _ _ Hc) as Hids. fold ids in Hids.
    rewrite Hids in *. case_decide; [|cbn in *; lia]. cbn in Hrun. paths; new_events.
Qed.


(** X7. The OPTIONS routes of a resource answer without the collaborators:
    they set Allow, write 204 and nothing else, and leave the world as it was;
    and the Allow header of each of the two lists exactly the methods that
    [addResource] registers for that path. *)
Theorem options_allow_registered_methods (prefix name : string) (addr : nat)
    (st : State W) (m : string) :
  let collection := prefix +:+ name in
  let item := collection +:+ "/:id" in
  (∃ allow,
     optionsCollection st
     = (Return (), {| world := world st;
                      writer := http.WriteHeader 204 (http.Set_ "Allow" allow (writer st));
                      trace := trace st ++ [HeaderSet "Allow" allow; WriteHeader 204] |})
     ∧ (m ∈ strings.Split allow "," ↔ ∃ h, (m, collection, h) ∈ routes_of prefix name addr))
  ∧ (∃ allow,
       optionsItem st
       = (Return (), {| world := world st;
                        writer := http.WriteHeader 204 (http.Set_ "Allow" allow (writer st));
                        trace := trace st ++ [HeaderSet "Allow" allow; WriteHeader 204] |})
       ∧ (m ∈ strings.Split allow "," ↔ ∃ h, (m, item, h) ∈ routes_of prefix name addr)).
Proof.
  intros collection item.
  pose proof (item_path_neq collection) as Hne. fold item in Hne.
  split; eexists; (split; [unfold optionsCollection, optionsItem; unfold_M; cbn;
                           rewrite <- app_assoc; reflexivity|]).
  - unfold routes_of. cbv zeta. fold collection. fold item.
    change (strings.Split "GET,POST,OPTIONS" ",") with ["GET"; "POST"; "OPTIONS"].
    rewrite !elem_of_cons, elem_of_nil. split.
    + intros [->|[->|[->|[]]]]; eexists; rewrite !elem_of_cons; eauto 10.
    + intros [h Hin]. rewrite !elem_of_cons, elem_of_nil in Hin.
      destruct Hin as [Hin|[Hin|[Hin|[Hin|[Hin|[Hin|[Hin|[]]]]]]]];
        apply pair_equal_spec in Hin as [Hmp _];
        apply pair_equal_spec in Hmp as [-> Hp];
        try (exfalso; exact (Hne Hp)); eauto.
  - unfold routes_of. cbv zeta. fold collection. fold item.
    change (strings.Split "GET,PUT,DELETE,OPTIONS" ",")
      with ["GET"; "PUT"; "DELETE"; "OPTIONS"].
    rewrite !elem_of_cons, elem_of_nil. split.
    + intros [->|[->|[->|[->|[]]]]]; eexists; rewrite !elem_of_cons; eauto 10.
    + intros [h Hin]. rewrite !elem_of_cons, elem_of_nil in Hin.
      destruct Hin as [Hin|[Hin|[Hin|[Hin|[Hin|[Hin|[Hin|[]]]]]]]];
        apply pair_equal_spec in Hin as [Hmp _];
        apply pair_equal_spec in Hmp as [-> Hp];
        try (exfalso; exact (Hne (eq_sym Hp))); eauto 10.
Qed.

End request_properties.

(** ** More of the blog, run *)


(** The second registration of the posts panics after it has added nothing:
    the routes of the first are all there is. *)
Lemma registration_only_adds_witness :
  let api1 := (AddResource (NewAPI "v1") Blog.prototype Blog.memory).2 in
  let out := addResource api1 Blog.prototype Blog.memory in
  prefix out.2 = prefix api1 ∧ router api1 `prefix_of` router out.2.
Proof.
  intros api1 out.
  destruct (registration_only_adds api1 out.2 Blog.prototype Blog.memory out.1)
    as (Hprefix & _ & added & Hrouter & _).
  - apply surjective_pairing.
  - split; [exact Hprefix|]. exists added. exact Hrouter.
Defined.



(** The read-only controller, attached after the registration, vetoes the
    DELETE route. *)
Lemma controller_is_shared_witness :
  ∃ api res,
    AddResourceWithController (NewAPI "v1") Blog.prototype Blog.memory Blog.readonly
    = (Done (), api)
    ∧ controller res = Some Blog.readonly
    ∧ run api (Serve Delete 0) (Blog.request "DELETE" "/v1/posts/1" [] "") [("id", "1")]
      = or_handleError
          (handler Delete res (Blog.request "DELETE" "/v1/posts/1" [] "") [("id", "1")]
             "/v1/").
Proof.
  exists (AddResourceWithController (NewAPI "v1") Blog.prototype Blog.memory Blog.readonly).2.
  destruct (controller_is_shared (NewAPI "v1")
              (AddResourceWithController (NewAPI "v1") Blog.prototype Blog.memory
                 Blog.readonly).2
              {| TypeOf := Blog.Post; data := zeroValue Blog.Post |} Blog.memory
              Blog.readonly Delete (Blog.request "DELETE" "/v1/posts/1" [] "") [("id", "1")])
    as (res & _ & Hc & Hrun); [reflexivity|].
  exists res. split; [reflexivity|]. split; [exact Hc|exact Hrun].
Defined.

(** The Allow header of the collection has POST and has no PUT. *)
Lemma options_allow_registered_methods_witness :
  ∃ allow st',
    optionsCollection Blog.start = (Return (), st')
    ∧ http.Header_ (writer st') !! "Allow" = Some [allow]
    ∧ "POST" ∈ strings.Split allow ","
    ∧ "PUT" ∉ strings.Split allow ",".
Proof.
  destruct (options_allow_registered_methods "/v1/" "posts" 0 Blog.start "POST")
    as [(allow & Hrun & Hallow) _].
  exists allow. eexists. split; [exact Hrun|].
  injection Hrun as Hallow'. subst allow.
  split; [reflexivity|]. split.
  - apply Hallow. eexists. unfold routes_of. cbv zeta. rewrite !elem_of_cons. eauto 10.
  - assert (Hs : strings.Split "GET,POST,OPTIONS" "," = ["GET"; "POST"; "OPTIONS"])
      by (vm_compute; reflexivity).
    rewrite Hs, !elem_of_cons, elem_of_nil. intros [?|[?|[?|[]]]]; discriminate.
Defined.

(** The list of the blog. *)
Lemma list_answers_collection_witness :
  ∃ st',
    handleIndex (Blog.posts_resource Blog.memory (Some Blog.liking))
      (Blog.request "GET" "/v1/posts" [] "") Blog.start = (Return (), st')
    ∧ http.response_status (writer st') = Some 200.
Proof.
  destruct (list_answers_collection (Blog.posts_resource Blog.memory (Some Blog.liking))
              (Blog.request "GET" "/v1/posts" [] "") Blog.start)
    as (req & Hreq & _ & Hok).
  edestruct Hok as [Hencoded _]; [vm_compute in Hreq; injection Hreq as <-;
                                  vm_compute; reflexivity|vm_compute; reflexivity|].
  edestruct Hencoded as (st' & Hrun & _ & _ & Hstatus & _); [vm_compute; reflexivity ..|].
  exists st'. split; [exact Hrun|exact Hstatus].
Defined.

(** The secretive controller fails the read of post 1 after the fetch. *)
Lemma read_hooks_run_after_fetch_witness :
  ∃ req st',
    handleRead (Blog.posts_resource Blog.memory (Some Blog.secretive))
      (Blog.request "GET" "/v1/posts/1" [] "") [("id", "1")] Blog.start
    = (Fail Blog.forbidden, st')
    ∧ trace st' = [SourceFindOne "1" req;
                   HookFindOne (Some {| TypeOf := Blog.Post; data := Blog.post "1" "first" 3 |})]
    ∧ writer st' = http.fresh.
Proof.
  destruct (read_hooks_run_after_fetch
              (Blog.posts_resource Blog.memory (Some Blog.secretive)) Blog.secretive
              (Blog.request "GET" "/v1/posts/1" [] "") "1" Blog.start eq_refl eq_refl)
    as (req & Hreq & _ & _ & Hread & _).
  exists req. eexists. split.
  - eapply Hread.
    + vm_compute in Hreq. injection Hreq as <-. vm_compute. reflexivity.
    + reflexivity.
  - split; reflexivity.
Defined.

(** The segment 1,2 is read as two IDs. *)
Lemma read_path_by_comma_witness :
  ∃ req st' evs,
    handleRead (Blog.posts_resource Blog.memory None)
      (Blog.request "GET" "/v1/posts/1,2" [] "") [("id", "1,2")] Blog.start
    = (Return (), st')
    ∧ trace st' = SourceFindMultiple ["1"; "2"] req :: evs.
Proof.
  destruct (read_path_by_comma (Blog.posts_resource Blog.memory None)
              (Blog.request "GET" "/v1/posts/1,2" [] "") [("id", "1,2")] Blog.start)
    as (_ & _ & req & _ & Hrun).
  edestruct Hrun as [_ [evs Htrace]]; [vm_compute; reflexivity|].
  exists req. do 2 eexists. split; [vm_compute; reflexivity|]. exact Htrace.
Defined.

(** Post 2 is deleted. *)
Lemma delete_answers_no_content_witness :
  ∃ st',
    handleDelete (Blog.posts_resource Blog.memory (Some Blog.liking))
      (Blog.request "DELETE" "/v1/posts/2" [] "") [("id", "2")] Blog.start
    = (Return (), st')
    ∧ Blog.posts (world st') !! "2" = None
    ∧ http.response_status (writer st') = Some 204
    ∧ http.written (writer st') = "".
Proof.
  destruct (delete_answers_no_content (Blog.posts_resource Blog.memory (Some Blog.liking))
              (Blog.request "DELETE" "/v1/posts/2" [] "") [("id", "2")] Blog.start)
    as [_ Hhook].
  edestruct Hhook as [Hok _]; [reflexivity|].
  edestruct Hok as (st' & Hrun & Hworld & _ & Hstatus & Hbody & _);
    [vm_compute; reflexivity|reflexivity|].
  exists st'. split; [exact Hrun|]. split; [|split; [exact Hstatus|exact Hbody]].
  rewrite Hworld. vm_compute. reflexivity.
Defined.

(** The forgetful data source: the ID is handed out, the read fails. *)
Lemma create_is_not_rolled_back_witness :
  ∃ st',
    handleCreate (Blog.posts_resource Blog.forgetful None)
      (Blog.request "POST" "/v1/posts" [] (Blog.js "{'title':'hi'}")) "/v1/" Blog.start
    = (Fail Blog.notFound, st')
    ∧ Blog.next (world st') = 4
    ∧ http.Header_ (writer st') !! "Location" = Some ["/v1/posts/3"].
Proof.
  edestruct (create_is_not_rolled_back (Blog.posts_resource Blog.forgetful None)
               (Blog.request "POST" "/v1/posts" [] (Blog.js "{'title':'hi'}")) "/v1/"
               Blog.start)
    as [Hfind _]; [vm_compute; reflexivity ..|].
  eexists. split; [eapply Hfind; vm_compute; reflexivity|].
  split; vm_compute; reflexivity.
Defined.

(** A PUT of a title answers 204. *)
Lemma success_status_by_verb_witness :
  ∃ st',
    handler Update (Blog.posts_resource Blog.memory None)
      (Blog.request "PUT" "/v1/posts/1" [] (Blog.js "{'title':'hi'}")) [("id", "1")] "/v1/"
      Blog.start = (Return (), st')
    ∧ http.response_status (writer st') = Some 204
    ∧ http.written (writer st') = "".
Proof.
  eexists.
  edestruct (success_status_by_verb Update (Blog.posts_resource Blog.memory None)
               (Blog.request "PUT" "/v1/posts/1" [] (Blog.js "{'title':'hi'}"))
               [("id", "1")] "/v1/" Blog.start)
    as (Hstatus & Hbody & _); [reflexivity|vm_compute; reflexivity|].
  split; [vm_compute; reflexivity|]. split; [exact Hstatus|exact Hbody].
Defined.


(** A data source that returns pointers makes the update panic. *)
Lemma only_update_can_panic_witness :
  ∃ reason st',
    handleUpdate (Blog.posts_resource Blog.pointers None)
      (Blog.request "PUT" "/v1/posts/1" [] (Blog.js "{'title':'hi'}")) [("id", "1")]
      Blog.start = (Panic reason, st')
    ∧ Forall (λ ev, is_mutation ev = false) (trace st').
Proof.
  destruct (only_update_can_panic Update (Blog.posts_resource Blog.pointers None)
              (Blog.request "PUT" "/v1/posts/1" [] (Blog.js "{'title':'hi'}"))
              [("id", "1")] "/v1/" Blog.start) as [_ Hpanic].
  edestruct Hpanic as [reason Hrun]; [vm_compute; reflexivity ..| |].
  - cbn. discriminate.
  - exists reason. eexists. split; [exact Hrun|]. cbn. repeat constructor.
Defined.

(** A second value of sort, and another body, change nothing. *)
Lemma buildRequest_first_values_witness :
  buildRequest (Blog.request "GET" "/v1/posts" [("sort", "title"); ("sort", "likes")] "")
  = buildRequest (Blog.request "POST" "/v1/posts" [("sort", "title")] "{}").
Proof.
  apply buildRequest_first_values. intros key.
  cbn [assoc http.RawQuery Blog.request].
  destruct (String.eqb "sort" key); reflexivity.
Defined.

